(** * export_to_kml: a shallow embedding of [misc/export_to_kml.py]

    The module converts a GeoDataFrame into a styled KML document.  The
    embedding follows the Python source function by function:

    - [esri_to_gdf]    the loader that dispatches on the path text;
    - [_style_polygon] the shared polygon styler;
    - [export_kml]     the per-record transcoder.

    Python strings are [string], ints are [Z], floats that are only passed
    through (coordinates, scales, widths) are [Q], [None]-able values are
    [option].  The collaborators that live in other packages (the geopandas
    reader and reprojection, the shapely centroid) are function parameters.
    Geometries are two-dimensional and not empty, as the data model has them. *)

From Stdlib Require Import List String Ascii ZArith QArith Bool Lia.
From Stdlib Require Import Numbers.DecimalString.
Import ListNotations.
Close Scope Q_scope.
Open Scope string_scope.
Open Scope bool_scope.

(* ===================================================================== *)
(** ** Python string primitives used by the loader *)
(* ===================================================================== *)

Module Py.

(** [sub in s] on Python strings: [sub] occurs somewhere in [s]. *)
Fixpoint str_in (sub s : string) : bool :=
  String.prefix sub s ||
  match s with
  | EmptyString => false
  | String _ s' => str_in sub s'
  end.

(** [s.split(sep)] for a non-empty [sep]: scan left to right, cut at every
    occurrence of [sep] and resume after it.  [skip] counts the characters
    of a matched separator that are still to be jumped over. *)
Fixpoint split_from (sep : string) (skip : nat) (s : string) : list string :=
  match s with
  | EmptyString => [EmptyString]
  | String c s' =>
      match skip with
      | S k => split_from sep k s'
      | O =>
          if String.prefix sep s
          then EmptyString :: split_from sep (String.length sep - 1) s'
          else match split_from sep 0 s' with
               | p :: ps => String c p :: ps
               | [] => [String c EmptyString]
               end
      end
  end.

Definition split (sep s : string) : list string := split_from sep 0 s.

(** [l[0]] on a list that [split] returned (never empty). *)
Definition item0 (l : list string) : string := nth 0 l EmptyString.

(** [p.rfind(c)]: index of the last occurrence of [c], or -1. *)
Fixpoint rfind (c : ascii) (p : string) : Z :=
  match p with
  | EmptyString => (-1)%Z
  | String a p' =>
      let r := rfind c p' in
      if (0 <=? r)%Z then (r + 1)%Z
      else if Ascii.eqb a c then 0%Z else (-1)%Z
  end.

(** [p[i:]] for [0 <= i]. *)
Fixpoint drop (i : nat) (p : string) : string :=
  match i, p with
  | O, _ => p
  | S _, EmptyString => EmptyString
  | S k, String _ p' => drop k p'
  end.

(** [os.path.basename] (posixpath): [i = p.rfind('/') + 1; return p[i:]]. *)
Definition basename (p : string) : string :=
  let i := (rfind "/"%char p + 1)%Z in
  drop (Z.to_nat i) p.

(** Truthiness of a [str]: non-empty. *)
Definition truthy_str (s : string) : bool :=
  match s with EmptyString => false | String _ _ => true end.

(** Truthiness of an [int]: non-zero. *)
Definition truthy_int (n : Z) : bool := negb (n =? 0)%Z.

(** Truthiness of an optional string ([None] or a [str]). *)
Definition truthy_opt_str (o : option string) : bool :=
  match o with None => false | Some s => truthy_str s end.

End Py.

(** What a call either returns or raises. *)
Inductive result (A : Type) : Type :=
| Ok (a : A)
| Raise (msg : string).
Arguments Ok {A} a.
Arguments Raise {A} msg.

(* ===================================================================== *)
(** ** Input data model: shapely geometries in a GeoDataFrame *)
(* ===================================================================== *)

(** An (x, y) vertex.  The values are only copied, never computed with. *)
Definition Coord : Type := (Q * Q)%type.

(** A shapely polygon: [exterior.coords] and the [interiors] rings. *)
Record PolygonShape : Type := mkPolygonShape {
  exterior : list Coord;
  interiors : list (list Coord)
}.

(** The shapely geometry classes.  The first six are the kinds the
    transcoder handles; [LinearRing] and [GeometryCollection] are the
    remaining classes a geometry column can hold. *)
#[warnings="-register-all"]
Inductive Geometry : Type :=
| Point (x y : Q)
| MultiPoint (geoms : list Coord)
| LineString (coords : list Coord)
| MultiLineString (geoms : list (list Coord))
| Polygon (shape : PolygonShape)
| MultiPolygon (geoms : list PolygonShape)
| LinearRing (coords : list Coord)
| GeometryCollection (geoms : list Geometry).

(** [geom.geom_type] *)
Definition geom_type (geom : Geometry) : string :=
  match geom with
  | Point _ _ => "Point"
  | MultiPoint _ => "MultiPoint"
  | LineString _ => "LineString"
  | MultiLineString _ => "MultiLineString"
  | Polygon _ => "Polygon"
  | MultiPolygon _ => "MultiPolygon"
  | LinearRing _ => "LinearRing"
  | GeometryCollection _ => "GeometryCollection"
  end.

(** A cell of an attribute column. *)
Inductive Cell : Type :=
| CNone
| CNaN
| CStr (s : string)
| CInt (n : Z)
| CBool (b : bool).

(** [str(v)] on a cell value. *)
Definition py_str (v : Cell) : string :=
  match v with
  | CNone => "None"
  | CNaN => "nan"
  | CStr s => s
  | CInt n => NilZero.string_of_int (Z.to_int n)
  | CBool true => "True"
  | CBool false => "False"
  end.

(** [gdf.crs]: a reference system answers [to_epsg()] with a code or [None]. *)
Record CRS : Type := mkCRS { to_epsg : option Z }.

(** One record of the frame: its attribute cells, aligned with the frame's
    attribute columns, and its geometry ([None] when missing). *)
Record Row : Type := mkRow {
  cells : list Cell;
  geometry : option Geometry
}.

Record GeoDataFrame : Type := mkGeoDataFrame {
  crs : option CRS;
  columns : list string;
  rows : list Row
}.

(** [row[c]] for a column [c] of the frame.  A frame has a cell for every
    column in every row; pandas pads a short record with NaN. *)
Fixpoint getitem (cols : list string) (vals : list Cell) (c : string) : Cell :=
  match cols, vals with
  | k :: cols', v :: vals' => if String.eqb k c then v else getitem cols' vals' c
  | _, _ => CNaN
  end.

(** [c in gdf.columns] *)
Definition in_columns (c : string) (cols : list string) : bool :=
  existsb (String.eqb c) cols.

(* ===================================================================== *)
(** ** The loader [esri_to_gdf] *)
(* ===================================================================== *)

(** The call handed to the geopandas reader: [gpd.read_file(filename)] or
    [gpd.read_file(filename=gdb, layer=fc)]. *)
Inductive ReadCall : Type :=
| ReadFile (filename : string)
| ReadLayer (filename layer : string).

Definition format_not_recognized : string :=
  "Format not recognized. Please provide a shp or featureclass (gdb)!".

Section Loader.

(** [gpd.read_file], the geopandas reader: it returns a frame or raises. *)
Variable read_file : ReadCall -> result GeoDataFrame.

Definition esri_to_gdf (aoi : string) : result GeoDataFrame :=
  if Py.str_in ".shp" aoi then
    read_file (ReadFile aoi)
  else if Py.str_in ".gdb" aoi then
    let l := Py.split ".gdb" aoi in
    let gdb := Py.item0 l ++ ".gdb" in
    let fc := Py.basename aoi in
    read_file (ReadLayer gdb fc)
  else
    Raise format_not_recognized.

End Loader.

(* ===================================================================== *)
(** ** Output data model: simplekml features with inline styles *)
(* ===================================================================== *)

(** The style attributes the transcoder assigns; [None] is "never assigned". *)
Record Style : Type := mkStyle {
  iconstyle_scale : option Q;
  iconstyle_color : option string;
  labelstyle_scale : option Q;
  labelstyle_color : option string;
  linestyle_color : option string;
  linestyle_width : option Q;
  polystyle_fill : option Z;
  polystyle_color : option string
}.

Definition new_style : Style :=
  mkStyle None None None None None None None None.

Definition set_iconstyle_scale (v : Q) (s : Style) : Style :=
  mkStyle (Some v) (iconstyle_color s) (labelstyle_scale s) (labelstyle_color s)
          (linestyle_color s) (linestyle_width s) (polystyle_fill s) (polystyle_color s).

Definition set_iconstyle_color (v : string) (s : Style) : Style :=
  mkStyle (iconstyle_scale s) (Some v) (labelstyle_scale s) (labelstyle_color s)
          (linestyle_color s) (linestyle_width s) (polystyle_fill s) (polystyle_color s).

Definition set_labelstyle_scale (v : Q) (s : Style) : Style :=
  mkStyle (iconstyle_scale s) (iconstyle_color s) (Some v) (labelstyle_color s)
          (linestyle_color s) (linestyle_width s) (polystyle_fill s) (polystyle_color s).

Definition set_labelstyle_color (v : string) (s : Style) : Style :=
  mkStyle (iconstyle_scale s) (iconstyle_color s) (labelstyle_scale s) (Some v)
          (linestyle_color s) (linestyle_width s) (polystyle_fill s) (polystyle_color s).

Definition set_linestyle_color (v : string) (s : Style) : Style :=
  mkStyle (iconstyle_scale s) (iconstyle_color s) (labelstyle_scale s) (labelstyle_color s)
          (Some v) (linestyle_width s) (polystyle_fill s) (polystyle_color s).

Definition set_linestyle_width (v : Q) (s : Style) : Style :=
  mkStyle (iconstyle_scale s) (iconstyle_color s) (labelstyle_scale s) (labelstyle_color s)
          (linestyle_color s) (Some v) (polystyle_fill s) (polystyle_color s).

Definition set_polystyle_fill (v : Z) (s : Style) : Style :=
  mkStyle (iconstyle_scale s) (iconstyle_color s) (labelstyle_scale s) (labelstyle_color s)
          (linestyle_color s) (linestyle_width s) (Some v) (polystyle_color s).

Definition set_polystyle_color (v : string) (s : Style) : Style :=
  mkStyle (iconstyle_scale s) (iconstyle_color s) (labelstyle_scale s) (labelstyle_color s)
          (linestyle_color s) (linestyle_width s) (polystyle_fill s) (Some v).

(** A simplekml polygon: one outer boundary and its inner boundaries. *)
Record KmlPolygon : Type := mkKmlPolygon {
  outerboundaryis : list Coord;
  innerboundaryis : list (list Coord)
}.

(** [pol.outerboundaryis = ring] *)
Definition set_outerboundaryis (ring : list Coord) (pol : KmlPolygon) : KmlPolygon :=
  mkKmlPolygon ring (innerboundaryis pol).

(** [pol.innerboundaryis = ring], where [ring] is a list of coordinate
    tuples: the assignment makes that one ring the polygon's inner
    boundaries, replacing what was assigned before. *)
Definition set_innerboundaryis (ring : list Coord) (pol : KmlPolygon) : KmlPolygon :=
  mkKmlPolygon (outerboundaryis pol) [ring].

Inductive KmlGeometry : Type :=
| KmlPoint (coords : list Coord)
| KmlLineString (coords : list Coord)
| KmlPolygonGeom (pol : KmlPolygon).

(** What a feature holds: one geometry, or a multigeometry of parts. *)
Inductive FeatureBody : Type :=
| Single (g : KmlGeometry)
| MultiGeometry (parts : list KmlGeometry).

Record Feature : Type := mkFeature {
  body : FeatureBody;
  name : option string;
  style : Style
}.

(** [kml.newpoint(name=..., coords=...)], [kml.newlinestring(...)],
    [kml.newpolygon()], [kml.newmultigeometry(name=...)]: a fresh feature
    with a fresh style. *)
Definition newpoint (name : option string) (coords : list Coord) : Feature :=
  mkFeature (Single (KmlPoint coords)) name new_style.

Definition newlinestring (name : option string) (coords : list Coord) : Feature :=
  mkFeature (Single (KmlLineString coords)) name new_style.

Definition newpolygon : KmlPolygon := mkKmlPolygon [] [].

Definition newmultigeometry (name : option string) : Feature :=
  mkFeature (MultiGeometry []) name new_style.

(** [multi.newpoint(...)], [multi.newlinestring(...)], [multi.newpolygon()]:
    the part is appended to the multigeometry. *)
Definition add_part (g : KmlGeometry) (f : Feature) : Feature :=
  match body f with
  | MultiGeometry parts => mkFeature (MultiGeometry (parts ++ [g])) (name f) (style f)
  | Single _ => f
  end.

(** [f.style.<attr> = v] *)
Definition with_style (upd : Style -> Style) (f : Feature) : Feature :=
  mkFeature (body f) (name f) (upd (style f)).

(* ===================================================================== *)
(** ** Configuration: the keyword parameters of [export_kml] *)
(* ===================================================================== *)

Record Config : Type := mkConfig {
  label_col : option string;
  show_labels : bool;
  line_color : string;
  line_width : Q;
  poly_fill : Z;
  poly_color : option string;
  label_color : string;
  label_scale : Q;
  point_icon_scale : Q;
  point_icon_color : string
}.

(** [simplekml.Color.red] and [simplekml.Color.white] (aabbggrr). *)
Definition Color_red : string := "ff0000ff".
Definition Color_white : string := "ffffffff".

Definition default_config : Config :=
  mkConfig None true Color_red 1.5%Q 0%Z None Color_white 1%Q 1%Q Color_red.

(* ===================================================================== *)
(** ** The transcoder: [_style_polygon] and [export_kml] *)
(* ===================================================================== *)

(** [_style_polygon(kml_geom, line_color, line_width, poly_fill, poly_color)] *)
Definition _style_polygon (kml_geom : Feature) (line_color : string) (line_width : Q)
    (poly_fill : Z) (poly_color : option string) : Feature :=
  let kml_geom := with_style (set_linestyle_color line_color) kml_geom in
  let kml_geom := with_style (set_linestyle_width line_width) kml_geom in
  let kml_geom := with_style (set_polystyle_fill poly_fill) kml_geom in
  let kml_geom :=
    if Py.truthy_int poly_fill && Py.truthy_opt_str poly_color then
      match poly_color with
      | Some c => with_style (set_polystyle_color c) kml_geom
      | None => kml_geom
      end
    else kml_geom in
  with_style (set_labelstyle_scale 0%Q) kml_geom.

(** [[(x, y) for x, y in coords]] *)
Definition xy_list (coords : list Coord) : list Coord :=
  map (fun p => let '(x, y) := p in (x, y)) coords.

(** The boundary assignments shared by the Polygon branch and by every part
    of the MultiPolygon branch:
    [pol.outerboundaryis = [...]] and then, for each interior in order,
    [pol.innerboundaryis = [...]]. *)
Definition assign_boundaries (shape : PolygonShape) (pol : KmlPolygon) : KmlPolygon :=
  let pol := set_outerboundaryis (xy_list (exterior shape)) pol in
  fold_left (fun pol interior => set_innerboundaryis (xy_list interior) pol)
            (interiors shape) pol.

(** [label = str(row[label_col]) if label_col and label_col in gdf.columns else ""] *)
Definition resolve_label (cfg : Config) (cols : list string) (row : Row) : string :=
  match label_col cfg with
  | Some c =>
      if Py.truthy_str c && in_columns c cols
      then py_str (getitem cols (cells row) c)
      else ""
  | None => ""
  end.

(** [label_scale if show_labels and label else 0] *)
Definition shown_label_scale (cfg : Config) (label : string) : Q :=
  if show_labels cfg && Py.truthy_str label then label_scale cfg else 0%Q.

(** [name=label if show_labels else ""] *)
Definition shown_name (cfg : Config) (label : string) : option string :=
  Some (if show_labels cfg then label else "").

(** The geometry-kind dispatch of the loop body.  [Some f] is the feature
    the branch adds to the document (the document keeps a reference to it,
    so the style assignments that follow its creation are part of it);
    [None] is the final [else] branch. *)
Definition build_feature (cfg : Config) (label : string) (geom : Geometry)
    : option Feature :=
  match geom with
  | Point x y =>
      let pt := newpoint (shown_name cfg label) [(x, y)] in
      let pt := with_style (set_iconstyle_scale (point_icon_scale cfg)) pt in
      let pt := with_style (set_iconstyle_color (point_icon_color cfg)) pt in
      let pt := with_style (set_labelstyle_scale (shown_label_scale cfg label)) pt in
      let pt := with_style (set_labelstyle_color (label_color cfg)) pt in
      Some pt
  | MultiPoint geoms =>
      let multi := newmultigeometry (shown_name cfg label) in
      let multi :=
        fold_left (fun multi point =>
                     let '(x, y) := point in add_part (KmlPoint [(x, y)]) multi)
                  geoms multi in
      let multi := with_style (set_iconstyle_scale (point_icon_scale cfg)) multi in
      let multi := with_style (set_iconstyle_color (point_icon_color cfg)) multi in
      let multi := with_style (set_labelstyle_scale (shown_label_scale cfg label)) multi in
      let multi := with_style (set_labelstyle_color (label_color cfg)) multi in
      Some multi
  | LineString coords =>
      let ls := newlinestring (shown_name cfg label) (xy_list coords) in
      let ls := with_style (set_linestyle_color (line_color cfg)) ls in
      let ls := with_style (set_linestyle_width (line_width cfg)) ls in
      let ls := with_style (set_labelstyle_scale (shown_label_scale cfg label)) ls in
      let ls := with_style (set_labelstyle_color (label_color cfg)) ls in
      Some ls
  | MultiLineString geoms =>
      let multi := newmultigeometry (shown_name cfg label) in
      let multi :=
        fold_left (fun multi line => add_part (KmlLineString (xy_list line)) multi)
                  geoms multi in
      let multi := with_style (set_linestyle_color (line_color cfg)) multi in
      let multi := with_style (set_linestyle_width (line_width cfg)) multi in
      let multi := with_style (set_labelstyle_scale (shown_label_scale cfg label)) multi in
      let multi := with_style (set_labelstyle_color (label_color cfg)) multi in
      Some multi
  | Polygon shape =>
      let pol := assign_boundaries shape newpolygon in
      let pol := mkFeature (Single (KmlPolygonGeom pol)) None new_style in
      Some (_style_polygon pol (line_color cfg) (line_width cfg)
                           (poly_fill cfg) (poly_color cfg))
  | MultiPolygon geoms =>
      let multi := newmultigeometry None in
      let multi :=
        fold_left (fun multi polygon =>
                     add_part (KmlPolygonGeom (assign_boundaries polygon newpolygon)) multi)
                  geoms multi in
      Some (_style_polygon multi (line_color cfg) (line_width cfg)
                           (poly_fill cfg) (poly_color cfg))
  | LinearRing _ | GeometryCollection _ => None
  end.

(** The message of the final [else] branch. *)
Definition unsupported_warning (geom_type : string) : string :=
  "Warning: Unsupported geometry type '" ++ geom_type ++ "' skipped.".

(** What the loop has produced so far: the features of the document, in
    order, and the lines printed. *)
Record Progress : Type := mkProgress {
  kml : list Feature;
  printed : list string
}.

Section Transcoder.

(** [gdf.to_crs(epsg=...)], the geopandas reprojection, and
    [geom.centroid], the shapely centroid. *)
Variable to_crs : GeoDataFrame -> Z -> GeoDataFrame.
Variable centroid : Geometry -> Coord.

(** The point added by the centroid-label step. *)
Definition centroid_label (cfg : Config) (label : string) (geom : Geometry) : Feature :=
  let c := centroid geom in
  let pt := newpoint (Some label) [(fst c, snd c)] in
  let pt := with_style (set_iconstyle_scale 0%Q) pt in
  let pt := with_style (set_labelstyle_scale (label_scale cfg)) pt in
  let pt := with_style (set_labelstyle_color (label_color cfg)) pt in
  pt.

(** One iteration of [for _, row in gdf.iterrows()], for a record whose
    geometry is [None] or a geometry.  [loop_body], further down, is the
    iteration for any record, the one with a NaN for geometry included. *)
Definition export_row (cfg : Config) (cols : list string)
    (st : Progress) (row : Row) : Progress :=
  match geometry row with
  | None => st
  | Some geom =>
      let label := resolve_label cfg cols row in
      let geom_type := geom_type geom in
      match build_feature cfg label geom with
      | None =>
          mkProgress (kml st) (printed st ++ [unsupported_warning geom_type])
      | Some f =>
          let st := mkProgress (kml st ++ [f]) (printed st) in
          if existsb (String.eqb geom_type) ["Polygon"; "MultiPolygon"]
             && show_labels cfg && Py.truthy_str label
          then mkProgress (kml st ++ [centroid_label cfg label geom]) (printed st)
          else st
      end
  end.

(** [gdf.crs and gdf.crs.to_epsg() != 4326] *)
Definition needs_reprojection (gdf : GeoDataFrame) : bool :=
  match crs gdf with
  | None => false
  | Some c =>
      match to_epsg c with
      | Some code => negb (code =? 4326)%Z
      | None => true
      end
  end.

(** What one call of [export_kml] did: the reprojections it asked for, the
    document handed to [kml.save], the path it was saved to and the lines
    printed. *)
Record Run : Type := mkRun {
  to_crs_calls : list Z;
  document : list Feature;
  saved_to : string;
  console : list string
}.

(** [export_kml] on a frame whose records have [None] or a geometry for
    geometry: the call runs through to [kml.save].  [export_kml_run], further
    down, is the call on any frame, with the exception a NaN raises. *)
Definition export_kml (gdf : GeoDataFrame) (output_path : string) (cfg : Config) : Run :=
  let reproject := needs_reprojection gdf in
  let gdf := if reproject then to_crs gdf 4326%Z else gdf in
  let st := fold_left (export_row cfg (columns gdf)) (rows gdf) (mkProgress [] []) in
  mkRun (if reproject then [4326%Z] else [])
        (kml st)
        output_path
        (printed st ++ ["KML saved to: " ++ output_path]).

End Transcoder.

(* ===================================================================== *)
(** ** Specification vocabulary *)
(* ===================================================================== *)

(** [sub] occurs in [s]; [s] ends with [suffix]. *)
Definition Substring (sub s : string) : Prop :=
  exists pre post, s = pre ++ sub ++ post.

Definition EndsWith (suffix s : string) : Prop :=
  exists pre, s = pre ++ suffix.

(** Executable test for [EndsWith]. *)
Fixpoint ends_withb (suffix s : string) : bool :=
  String.eqb suffix s ||
  match s with
  | EmptyString => false
  | String _ s' => ends_withb suffix s'
  end.

(** The two path forms in the words of the specification: a path ending in
    the extension [.shp], and a path containing [.gdb]. *)
Definition spec_shapefile_path (aoi : string) : Prop := EndsWith ".shp" aoi.
Definition spec_geodatabase_path (aoi : string) : Prop := Substring ".gdb" aoi.

(** [gdb] is everything of [aoi] up to and including its first [.gdb]. *)
Definition gdb_container (gdb aoi : string) : Prop :=
  exists head tail,
    gdb = head ++ ".gdb" /\ aoi = head ++ ".gdb" ++ tail /\
    forall head' tail', aoi = head' ++ ".gdb" ++ tail' ->
                        String.length head <= String.length head'.

(** [fc] is the last [/]-separated segment of [aoi]. *)
Definition last_segment (fc aoi : string) : Prop :=
  exists dir, aoi = dir ++ fc /\ ~ Substring "/" fc /\ (dir = "" \/ EndsWith "/" dir).

(** What the loader does with a path, case by case, for a given reader. *)
Inductive loader_outcome (read_file : ReadCall -> result GeoDataFrame)
    (aoi : string) : result GeoDataFrame -> Prop :=
| outcome_shp :
    Substring ".shp" aoi ->
    loader_outcome read_file aoi (read_file (ReadFile aoi))
| outcome_gdb gdb fc :
    ~ Substring ".shp" aoi -> Substring ".gdb" aoi ->
    gdb_container gdb aoi -> last_segment fc aoi ->
    loader_outcome read_file aoi (read_file (ReadLayer gdb fc))
| outcome_other :
    ~ Substring ".shp" aoi -> ~ Substring ".gdb" aoi ->
    loader_outcome read_file aoi (Raise format_not_recognized).

(** The geometry kinds with a branch in [export_kml]. *)
Definition supported_kinds : list string :=
  ["Point"; "MultiPoint"; "LineString"; "MultiLineString"; "Polygon"; "MultiPolygon"].

Definition point_or_line (geom : Geometry) : bool :=
  match geom with
  | Point _ _ | MultiPoint _ | LineString _ | MultiLineString _ => true
  | _ => false
  end.

Definition polygonal (geom : Geometry) : bool :=
  match geom with
  | Polygon _ | MultiPolygon _ => true
  | _ => false
  end.

(** The KML geometry a record is specified to carry: the same vertices in
    the same order, and for a polygon the outer ring followed by every
    inner ring in original order. *)
Definition spec_polygon (shape : PolygonShape) : KmlGeometry :=
  KmlPolygonGeom (mkKmlPolygon (exterior shape) (interiors shape)).

Definition spec_body (geom : Geometry) : option FeatureBody :=
  match geom with
  | Point x y => Some (Single (KmlPoint [(x, y)]))
  | MultiPoint geoms => Some (MultiGeometry (map (fun p => KmlPoint [p]) geoms))
  | LineString coords => Some (Single (KmlLineString coords))
  | MultiLineString geoms => Some (MultiGeometry (map KmlLineString geoms))
  | Polygon shape => Some (Single (spec_polygon shape))
  | MultiPolygon geoms => Some (MultiGeometry (map spec_polygon geoms))
  | LinearRing _ | GeometryCollection _ => None
  end.

(** Every polygon of the geometry has at most one hole. *)
Definition at_most_one_hole (geom : Geometry) : Prop :=
  match geom with
  | Polygon shape => List.length (interiors shape) <= 1
  | MultiPolygon geoms => Forall (fun shape => List.length (interiors shape) <= 1) geoms
  | _ => True
  end.

(** The features one record contributes to the document, in order. *)
Definition record_features (centroid : Geometry -> Coord) (cfg : Config)
    (cols : list string) (row : Row) : list Feature :=
  match geometry row with
  | None => []
  | Some geom =>
      let label := resolve_label cfg cols row in
      match build_feature cfg label geom with
      | None => []
      | Some f =>
          if polygonal geom && show_labels cfg && Py.truthy_str label
          then [f; centroid_label centroid cfg label geom]
          else [f]
      end
  end.

(** The diagnostics one record contributes to the console. *)
Definition record_diagnostics (row : Row) : list string :=
  match geometry row with
  | Some geom =>
      if existsb (String.eqb (geom_type geom)) supported_kinds then []
      else [unsupported_warning (geom_type geom)]
  | None => []
  end.

(** The frame whose rows are transcoded. *)
Definition transcoded_frame (to_crs : GeoDataFrame -> Z -> GeoDataFrame)
    (gdf : GeoDataFrame) : GeoDataFrame :=
  if needs_reprojection gdf then to_crs gdf 4326%Z else gdf.

(* ===================================================================== *)
(** ** Sample inputs *)
(* ===================================================================== *)

(** A reader that finds an empty frame wherever it is sent. *)
Definition empty_frame : GeoDataFrame := mkGeoDataFrame None [] [].
Definition reads_empty_frame : ReadCall -> result GeoDataFrame :=
  fun _ => Ok empty_frame.

Definition keep_crs : GeoDataFrame -> Z -> GeoDataFrame := fun gdf _ => gdf.
Definition first_vertex : Geometry -> Coord :=
  fun geom =>
    match geom with
    | Polygon shape => hd (0%Q, 0%Q) (exterior shape)
    | MultiPolygon (shape :: _) => hd (0%Q, 0%Q) (exterior shape)
    | _ => (0%Q, 0%Q)
    end.

(** A second centroid computation: the same on polygonal geometries. *)
Definition polygon_vertex : Geometry -> Coord :=
  fun geom => if polygonal geom then first_vertex geom else (1%Q, 1%Q).

Definition square : list Coord :=
  [(0%Q, 0%Q); (10%Q, 0%Q); (10%Q, 10%Q); (0%Q, 10%Q); (0%Q, 0%Q)].
Definition hole_a : list Coord :=
  [(1%Q, 1%Q); (2%Q, 1%Q); (2%Q, 2%Q); (1%Q, 1%Q)].
Definition hole_b : list Coord :=
  [(5%Q, 5%Q); (6%Q, 5%Q); (6%Q, 6%Q); (5%Q, 5%Q)].

Definition square_two_holes : Geometry :=
  Polygon (mkPolygonShape square [hole_a; hole_b]).
Definition square_one_hole : Geometry :=
  Polygon (mkPolygonShape square [hole_a]).

Definition wgs84 : CRS := mkCRS (Some 4326%Z).
Definition utm10 : CRS := mkCRS (Some 26910%Z).

Definition name_config : Config :=
  mkConfig (Some "name") true Color_red 1.5%Q 1%Z (Some "7f00ff00")
           Color_white 2%Q 1%Q Color_red.

Definition empty_color_config : Config :=
  mkConfig None true Color_red 1.5%Q 1%Z (Some "") Color_white 1%Q 1%Q Color_red.

Definition point_row : Row := mkRow [CStr "A"] (Some (Point 1%Q 2%Q)).
Definition zone_row : Row := mkRow [CStr "Zone1"] (Some square_one_hole).
Definition null_name_row : Row := mkRow [CNone] (Some square_one_hole).

Definition two_holes_frame : GeoDataFrame :=
  mkGeoDataFrame (Some wgs84) ["name"] [mkRow [CStr "Zone1"] (Some square_two_holes)].

Definition mixed_frame : GeoDataFrame :=
  mkGeoDataFrame (Some utm10) ["name"]
    [ mkRow [CStr "A"] (Some (Point 1%Q 2%Q));
      mkRow [CNone] None;
      mkRow [CStr "C"] (Some (GeometryCollection [Point 1%Q 1%Q]));
      mkRow [CNone] (Some square_one_hole);
      mkRow [CStr ""] (Some (LineString [(0%Q, 0%Q); (1%Q, 1%Q)])) ].

(* ===================================================================== *)
(** ** Further specification vocabulary *)
(* ===================================================================== *)

(** The inner rings a polygon ends up with after the boundary assignments:
    the last interior ring alone, or none. *)
Definition kept_rings (rings : list (list Coord)) : list (list Coord) :=
  match rev rings with
  | [] => []
  | ring :: _ => [ring]
  end.

Definition emitted_polygon (shape : PolygonShape) : KmlGeometry :=
  KmlPolygonGeom (mkKmlPolygon (exterior shape) (kept_rings (interiors shape))).

(** The geometries one record contributes when its coordinates are carried
    over as they are: its own, then the centroid point of a labelled
    polygon. *)
Definition record_bodies (centroid : Geometry -> Coord) (cfg : Config)
    (cols : list string) (row : Row) : list FeatureBody :=
  match geometry row with
  | None => []
  | Some geom =>
      match spec_body geom with
      | None => []
      | Some b =>
          if polygonal geom && show_labels cfg
             && Py.truthy_str (resolve_label cfg cols row)
          then [b; Single (KmlPoint [centroid geom])]
          else [b]
      end
  end.

(** The record has a geometry of a kind with a branch. *)
Definition transcoded_record (row : Row) : bool :=
  match geometry row with
  | Some geom => existsb (String.eqb (geom_type geom)) supported_kinds
  | None => false
  end.

(** The record has a geometry of a kind without a branch; its kind. *)
Definition unsupported_record (row : Row) : bool :=
  match geometry row with
  | Some geom => negb (existsb (String.eqb (geom_type geom)) supported_kinds)
  | None => false
  end.

Definition record_kind (row : Row) : string :=
  match geometry row with
  | Some geom => geom_type geom
  | None => ""
  end.

(** The record is a polygon or multipolygon whose label shows. *)
Definition labelled_polygon (cfg : Config) (cols : list string) (row : Row) : bool :=
  match geometry row with
  | Some geom =>
      polygonal geom && show_labels cfg && Py.truthy_str (resolve_label cfg cols row)
  | None => false
  end.

Definition point_kind (geom : Geometry) : bool :=
  match geom with
  | Point _ _ | MultiPoint _ => true
  | _ => false
  end.

Definition line_kind (geom : Geometry) : bool :=
  match geom with
  | LineString _ | MultiLineString _ => true
  | _ => false
  end.

(** No label can show: labels are off, or no usable label column is given. *)
Definition labels_hidden (cfg : Config) (cols : list string) : Prop :=
  show_labels cfg = false \/
  label_col cfg = None \/
  exists c, label_col cfg = Some c /\ (c = "" \/ ~ In c cols).

(** A reprojection that keeps the records and tags the frame with the code. *)
Definition retag_crs : GeoDataFrame -> Z -> GeoDataFrame :=
  fun gdf code => mkGeoDataFrame (Some (mkCRS (Some code))) (columns gdf) (rows gdf).

Definition hidden_config : Config :=
  mkConfig (Some "name") false Color_red 1.5%Q 0%Z None Color_white 2%Q 1%Q Color_red.

Definition wgs84_rows_a : list Row := [point_row; mkRow [CStr "skip"] None].
Definition wgs84_rows_b : list Row :=
  [zone_row; mkRow [CStr "ring"] (Some (LinearRing square))].

(* ===================================================================== *)
(** ** Records as [iterrows] delivers them *)
(* ===================================================================== *)

(** What [row.geometry] holds when the loop reads it: [None], the float NaN
    that stands in a row for a missing value, or a geometry. *)
Inductive GeometryCell : Type :=
| CellNone
| CellNaN
| CellGeometry (geom : Geometry).

Record SourceRow : Type := mkSourceRow {
  source_cells : list Cell;
  geometry_cell : GeometryCell
}.

Record SourceFrame : Type := mkSourceFrame {
  source_crs : option CRS;
  source_columns : list string;
  source_rows : list SourceRow
}.

(** What [geom.geom_type] raises when [geom] is a float. *)
Definition float_has_no_geom_type : string :=
  "AttributeError: 'float' object has no attribute 'geom_type'".

(** How the loop leaves a record, or the whole frame: it went through, or
    an exception stopped it with the progress made so far. *)
Inductive LoopEnd : Type :=
| Finished (st : Progress)
| Failed (st : Progress) (error : string).

(** The body of [for _, row in gdf.iterrows()] on any record.
    [if geom is None: continue] lets a [None] pass.  A NaN is not [None]:
    the label is computed and then [geom.geom_type] raises.  For a geometry
    the body is [export_row]. *)
Definition loop_body (centroid : Geometry -> Coord) (cfg : Config)
    (cols : list string) (st : Progress) (row : SourceRow) : LoopEnd :=
  match geometry_cell row with
  | CellNone => Finished st
  | CellNaN => Failed st float_has_no_geom_type
  | CellGeometry geom =>
      Finished (export_row centroid cfg cols st
                           (mkRow (source_cells row) (Some geom)))
  end.

(** The loop: records in order, stopping at the first exception. *)
Fixpoint loop (centroid : Geometry -> Coord) (cfg : Config) (cols : list string)
    (rws : list SourceRow) (st : Progress) : LoopEnd :=
  match rws with
  | [] => Finished st
  | row :: rest =>
      match loop_body centroid cfg cols st row with
      | Finished st' => loop centroid cfg cols rest st'
      | Failed st' error => Failed st' error
      end
  end.

(** What a call of [export_kml] comes to: the file is saved, or an
    exception ends the call after the reprojections asked for and the lines
    printed so far, with nothing saved. *)
Inductive Outcome : Type :=
| Saved (run : Run)
| Aborted (to_crs_calls : list Z) (console : list string) (error : string).

(** [export_kml], from the reprojection test to [kml.save] and the final
    [print], on a frame as [iterrows] delivers its records. *)
Definition export_kml_run (to_crs : SourceFrame -> Z -> SourceFrame)
    (centroid : Geometry -> Coord) (gdf : SourceFrame) (output_path : string)
    (cfg : Config) : Outcome :=
  let reproject :=
    needs_reprojection (mkGeoDataFrame (source_crs gdf) (source_columns gdf) []) in
  let gdf := if reproject then to_crs gdf 4326%Z else gdf in
  let calls := if reproject then [4326%Z] else [] in
  match loop centroid cfg (source_columns gdf) (source_rows gdf) (mkProgress [] []) with
  | Finished st =>
      Saved (mkRun calls (kml st) output_path
                   (printed st ++ ["KML saved to: " ++ output_path]))
  | Failed st error => Aborted calls (printed st) error
  end.

(** A record whose geometry is [None] or a geometry, as a source record. *)
Definition source_row (row : Row) : SourceRow :=
  mkSourceRow (cells row)
              (match geometry row with
               | None => CellNone
               | Some geom => CellGeometry geom
               end).

Definition source_frame (gdf : GeoDataFrame) : SourceFrame :=
  mkSourceFrame (crs gdf) (columns gdf) (map source_row (rows gdf)).

(* ===================================================================== *)
(** ** The ids of the KML library *)
(* ===================================================================== *)

(** simplekml gives every object it creates (the document, and the
    features, geometries and styles in it) an id from one counter that
    lives as long as the Python process, and writes the ids into the file;
    [export_kml] makes its document with [simplekml.Kml()] and never resets
    the counter.  A written file is kept here as the id of its document, its
    features and its path. *)
Record KmlFile : Type := mkKmlFile {
  document_id : nat;
  file_features : list Feature;
  file_path : string
}.

Section Process.

(** The number of ids drawn for the features, geometries and styles of a
    document. *)
Variable objects_created : list Feature -> nat.
Variable to_crs : GeoDataFrame -> Z -> GeoDataFrame.
Variable centroid : Geometry -> Coord.

(** One call of [export_kml] in a process whose counter stands at
    [next_id]: the file written, and where the counter stands afterwards. *)
Definition export_kml_in_process (next_id : nat) (gdf : GeoDataFrame)
    (output_path : string) (cfg : Config) : KmlFile * nat :=
  let run := export_kml to_crs centroid gdf output_path cfg in
  (mkKmlFile next_id (document run) (saved_to run),
   next_id + 1 + objects_created (document run)).

(** Two calls on the same input, one after the other in one process. *)
Definition export_twice (next_id : nat) (gdf : GeoDataFrame)
    (output_path : string) (cfg : Config) : KmlFile * KmlFile :=
  let (first, next_id) := export_kml_in_process next_id gdf output_path cfg in
  let (second, _) := export_kml_in_process next_id gdf output_path cfg in
  (first, second).

End Process.

(** The geometry that reaches the document for a geometry of the frame. *)
Definition emitted_body (geom : Geometry) : option FeatureBody :=
  match geom with
  | Point x y => Some (Single (KmlPoint [(x, y)]))
  | MultiPoint geoms => Some (MultiGeometry (map (fun p => KmlPoint [p]) geoms))
  | LineString coords => Some (Single (KmlLineString coords))
  | MultiLineString geoms => Some (MultiGeometry (map KmlLineString geoms))
  | Polygon shape => Some (Single (emitted_polygon shape))
  | MultiPolygon geoms => Some (MultiGeometry (map emitted_polygon geoms))
  | LinearRing _ | GeometryCollection _ => None
  end.

(** The geometries one record puts in the document, in order. *)
Definition record_emitted_bodies (centroid : Geometry -> Coord) (cfg : Config)
    (cols : list string) (row : Row) : list FeatureBody :=
  match geometry row with
  | None => []
  | Some geom =>
      match emitted_body geom with
      | None => []
      | Some b =>
          if labelled_polygon cfg cols row
          then [b; Single (KmlPoint [centroid geom])]
          else [b]
      end
  end.

(** Further sample inputs. *)
Definition keep_source_crs : SourceFrame -> Z -> SourceFrame := fun gdf _ => gdf.
Definition line_row : Row :=
  mkRow [CStr "L"] (Some (LineString [(0%Q, 0%Q); (1%Q, 1%Q)])).
Definition nan_geometry_row : SourceRow := mkSourceRow [CStr "B"] CellNaN.

Definition nan_geometry_frame : SourceFrame :=
  mkSourceFrame (Some wgs84) ["name"]
    [source_row point_row; nan_geometry_row; source_row line_row].

Definition without_nan_frame : SourceFrame :=
  mkSourceFrame (Some wgs84) ["name"] [source_row point_row; source_row line_row].

Definition three_ids_per_feature : list Feature -> nat :=
  fun doc => 3 * List.length doc.

(* ===================================================================== *)
(** ** Python string primitives meet their specifications *)
(* ===================================================================== *)

Lemma append_assoc (a b c : string) : (a ++ b) ++ c = a ++ (b ++ c).
Proof. induction a as [|x a IH]; simpl; [reflexivity | now rewrite IH]. Qed.

Lemma append_nil_r (a : string) : a ++ "" = a.
Proof. induction a as [|x a IH]; simpl; [reflexivity | now rewrite IH]. Qed.

Lemma length_append (a b : string) :
  String.length (a ++ b) = String.length a + String.length b.
Proof. induction a as [|x a IH]; simpl; [reflexivity | now rewrite IH]. Qed.

Lemma prefix_spec (a s : string) :
  String.prefix a s = true <-> exists post, s = a ++ post.
Proof.
  revert s; induction a as [|x a IH]; intros s.
  - split; [intros _; now exists s | intros _; now destruct s].
  - destruct s as [|y s]; simpl.
    + split; [discriminate | intros [post H]; discriminate].
    + destruct (ascii_dec x y) as [->|Hxy].
      * rewrite IH. split; intros [post H]; exists post.
        -- now rewrite H.
        -- now injection H.
      * split; [discriminate | intros [post H]; injection H; intros; congruence].
Qed.

Lemma str_in_spec (sub s : string) :
  Py.str_in sub s = true <-> Substring sub s.
Proof.
  induction s as [|c s IH]; cbn [Py.str_in]; rewrite orb_true_iff.
  - split.
    + intros [H|H]; [|discriminate].
      apply prefix_spec in H as [post H]. now exists "", post.
    + intros [pre [post H]]. left. apply prefix_spec.
      destruct pre; [now exists post | discriminate].
  - rewrite IH. split.
    + intros [H|[pre [post H]]].
      * apply prefix_spec in H as [post H]. now exists "", post.
      * exists (String c pre), post. simpl. now rewrite H.
    + intros [pre [post H]]. destruct pre as [|x pre]; simpl in H.
      * left. apply prefix_spec. now exists post.
      * right. injection H as _ H. now exists pre, post.
Qed.

Lemma str_in_false (sub s : string) :
  Py.str_in sub s = false <-> ~ Substring sub s.
Proof.
  rewrite <- str_in_spec. destruct (Py.str_in sub s); split; congruence.
Qed.

Lemma ends_withb_spec (suffix s : string) :
  ends_withb suffix s = true <-> EndsWith suffix s.
Proof.
  induction s as [|c s IH]; cbn [ends_withb]; rewrite orb_true_iff.
  - rewrite String.eqb_eq. split.
    + intros [->|H]; [now exists "" | discriminate].
    + intros [pre H]. left. destruct pre; simpl in H; [congruence | discriminate].
  - rewrite String.eqb_eq, IH. split.
    + intros [->|[pre H]]; [now exists "" |].
      exists (String c pre). simpl. now rewrite H.
    + intros [pre H]. destruct pre as [|x pre]; simpl in H.
      * left; congruence.
      * right. injection H as _ H. now exists pre.
Qed.

(** The first piece of a split: empty when the separator starts the text,
    else the first character followed by the first piece of the rest. *)
Lemma item0_split_cons (sep : string) (c : ascii) (s : string) :
  Py.item0 (Py.split sep (String c s)) =
  if String.prefix sep (String c s) then ""
  else String c (Py.item0 (Py.split sep s)).
Proof.
  unfold Py.split. cbn [Py.split_from].
  destruct (String.prefix sep (String c s)); [reflexivity |].
  destruct (Py.split_from sep 0 s); reflexivity.
Qed.

Lemma item0_split_first (sep s : string) :
  Py.str_in sep s = true ->
  exists tail,
    s = Py.item0 (Py.split sep s) ++ sep ++ tail /\
    forall head' tail', s = head' ++ sep ++ tail' ->
      String.length (Py.item0 (Py.split sep s)) <= String.length head'.
Proof.
  induction s as [|c s IH]; intros Hin.
  - cbn [Py.str_in] in Hin. rewrite orb_false_r in Hin.
    apply prefix_spec in Hin as [post H].
    exists post. split; [exact H | intros; simpl; lia].
  - rewrite item0_split_cons.
    destruct (String.prefix sep (String c s)) eqn:Hp.
    + apply prefix_spec in Hp as [post H].
      exists post. split; [exact H | intros; simpl; lia].
    + cbn [Py.str_in] in Hin. rewrite Hp in Hin. simpl in Hin.
      destruct (IH Hin) as [tail [Hs Hmin]].
      exists tail. split.
      * simpl. now rewrite <- Hs.
      * intros head' tail' H. destruct head' as [|x head']; simpl in H.
        -- assert (String.prefix sep (String c s) = true) as Hc
             by (apply prefix_spec; now exists tail').
           congruence.
        -- injection H as _ H. simpl. specialize (Hmin _ _ H). lia.
Qed.

(** [rfind]: either the character is absent, or the text splits at its
    last occurrence. *)
Lemma rfind_spec (c : ascii) (p : string) :
  (Py.rfind c p = (-1)%Z /\ ~ Substring (String c "") p) \/
  (exists pre post,
      p = pre ++ String c post /\
      Py.rfind c p = Z.of_nat (String.length pre) /\
      ~ Substring (String c "") post).
Proof.
  induction p as [|a p IH].
  - left. split; [reflexivity |].
    intros [pre [post H]]. destruct pre; discriminate.
  - cbn [Py.rfind]. destruct IH as [[Hr Hno]|[pre [post [Hp [Hr Hno]]]]].
    + rewrite Hr. simpl (0 <=? -1)%Z. cbv iota.
      destruct (Ascii.eqb a c) eqn:Hac.
      * apply Ascii.eqb_eq in Hac as ->. right. exists "", p. now split.
      * left. split; [reflexivity |].
        intros [pre [post H]]. destruct pre as [|x pre]; simpl in H.
        -- injection H as H _. subst. now rewrite Ascii.eqb_refl in Hac.
        -- injection H as _ H. apply Hno. now exists pre, post.
    + rewrite Hr. destruct (Z.leb_spec 0 (Z.of_nat (String.length pre))); [|lia].
      right. exists (String a pre), post. repeat split.
      * simpl. now rewrite Hp.
      * simpl String.length. lia.
      * exact Hno.
Qed.

Lemma drop_append (pre s : string) : Py.drop (String.length pre) (pre ++ s) = s.
Proof. induction pre as [|x pre IH]; simpl; [now destruct s | exact IH]. Qed.

Lemma basename_last_segment (p : string) : last_segment (Py.basename p) p.
Proof.
  unfold Py.basename, last_segment.
  destruct (rfind_spec "/"%char p) as [[Hr Hno]|[pre [post [Hp [Hr Hno]]]]].
  - rewrite Hr. simpl. exists "". repeat split; [exact Hno | now left].
  - rewrite Hr.
    replace (Z.to_nat (Z.of_nat (String.length pre) + 1))
      with (String.length (pre ++ "/")).
    + exists (pre ++ "/"). subst p.
      replace (pre ++ String "/"%char post) with ((pre ++ "/") ++ post)
        by (now rewrite append_assoc).
      rewrite drop_append. repeat split; [exact Hno |].
      right. now exists pre.
    + rewrite length_append. simpl. lia.
Qed.

(* ===================================================================== *)
(** ** The loader *)
(* ===================================================================== *)

Lemma gdb_container_split (aoi : string) :
  Py.str_in ".gdb" aoi = true ->
  gdb_container (Py.item0 (Py.split ".gdb" aoi) ++ ".gdb") aoi.
Proof.
  intros Hin. destruct (item0_split_first _ _ Hin) as [tail [Hs Hmin]].
  exists (Py.item0 (Py.split ".gdb" aoi)), tail. now repeat split.
Qed.

(** C5 (as amended).  The loader goes by the text of the path: a path that
    contains [.shp] anywhere is handed to the reader as a shapefile; failing
    that, a path that contains [.gdb] is read as a layer of the geodatabase
    named by everything up to and including the first [.gdb], the layer
    being the last [/]-separated segment of the path; a path with neither
    raises "Format not recognized".  That error is raised whatever the reader
    does, that is before any reader is called, exactly for the paths that
    contain neither substring. *)
Theorem esri_to_gdf_outcome (read_file : ReadCall -> result GeoDataFrame)
    (aoi : string) :
  loader_outcome read_file aoi (esri_to_gdf read_file aoi) /\
  ((forall reader, esri_to_gdf reader aoi = Raise format_not_recognized) <->
   (~ Substring ".shp" aoi /\ ~ Substring ".gdb" aoi)).
Proof.
  unfold esri_to_gdf.
  destruct (Py.str_in ".shp" aoi) eqn:Hshp.
  - apply str_in_spec in Hshp. split.
    + now apply outcome_shp.
    + split.
      * intros H. specialize (H reads_empty_frame). discriminate.
      * intros [Hno _]. contradiction.
  - apply str_in_false in Hshp.
    destruct (Py.str_in ".gdb" aoi) eqn:Hgdb.
    + split.
      * apply outcome_gdb.
        -- exact Hshp.
        -- now apply str_in_spec.
        -- now apply gdb_container_split.
        -- apply basename_last_segment.
      * apply str_in_spec in Hgdb. split.
        -- intros H. specialize (H reads_empty_frame). discriminate.
        -- intros [_ Hno]. contradiction.
    + apply str_in_false in Hgdb. split.
      * now apply outcome_other.
      * split; [intros _; now split | reflexivity].
Qed.

(** C5 (as stated) fails: [roads.shp.xml] neither ends in [.shp] nor
    contains [.gdb], yet the loader raises nothing of its own: it hands the
    path to the shapefile reader and returns what the reader finds. *)
Lemma shp_xml_sidecar_is_accepted :
  ~ spec_shapefile_path "roads.shp.xml" /\
  ~ spec_geodatabase_path "roads.shp.xml" /\
  (forall read_file,
      esri_to_gdf read_file "roads.shp.xml" = read_file (ReadFile "roads.shp.xml")) /\
  esri_to_gdf reads_empty_frame "roads.shp.xml" = Ok empty_frame.
Proof.
  split; [|split; [|split]].
  - unfold spec_shapefile_path. rewrite <- ends_withb_spec. now vm_compute.
  - unfold spec_geodatabase_path. rewrite <- str_in_spec. now vm_compute.
  - reflexivity.
  - reflexivity.
Qed.

(** A feature class in a geodatabase, with and without a feature dataset. *)
Example gdb_feature_class :
  esri_to_gdf (fun call => Raise (match call with
                                  | ReadFile f => f
                                  | ReadLayer f l => f ++ " : " ++ l
                                  end)) "C:/data/my.gdb/transport/roads" =
  Raise "C:/data/my.gdb : roads".
Proof. reflexivity. Qed.

(* ===================================================================== *)
(** ** Feature builders *)
(* ===================================================================== *)

Lemma xy_list_id (coords : list Coord) : xy_list coords = coords.
Proof.
  unfold xy_list. induction coords as [|[x y] coords IH]; simpl;
    [reflexivity | now rewrite IH].
Qed.

(** The inner-boundary assignments leave only the ring assigned last. *)
Lemma assign_boundaries_inner (shape : PolygonShape) (pol : KmlPolygon) :
  innerboundaryis (assign_boundaries shape pol) =
  match rev (interiors shape) with
  | [] => innerboundaryis pol
  | ring :: _ => [ring]
  end.
Proof.
  unfold assign_boundaries.
  set (p0 := set_outerboundaryis (xy_list (exterior shape)) pol).
  change (innerboundaryis pol) with (innerboundaryis p0).
  generalize p0. clear p0.
  induction (interiors shape) as [|r rs IH] using rev_ind; intros p0.
  - reflexivity.
  - rewrite fold_left_app, rev_app_distr. simpl. now rewrite xy_list_id.
Qed.

Lemma assign_boundaries_outer (shape : PolygonShape) (pol : KmlPolygon) :
  outerboundaryis (assign_boundaries shape pol) = exterior shape.
Proof.
  unfold assign_boundaries.
  set (p0 := set_outerboundaryis (xy_list (exterior shape)) pol).
  assert (outerboundaryis p0 = exterior shape) as <-
    by (unfold p0; simpl; apply xy_list_id).
  generalize p0. clear p0.
  induction (interiors shape) as [|r rs IH]; intros p0; simpl;
    [reflexivity | now rewrite IH].
Qed.

Lemma assign_boundaries_at_most_one_hole (shape : PolygonShape) :
  List.length (interiors shape) <= 1 ->
  KmlPolygonGeom (assign_boundaries shape newpolygon) = spec_polygon shape.
Proof.
  intros Hlen. unfold spec_polygon. f_equal.
  pose proof (assign_boundaries_inner shape newpolygon) as Hi.
  pose proof (assign_boundaries_outer shape newpolygon) as Ho.
  destruct (assign_boundaries shape newpolygon) as [o i]. simpl in *. subst o.
  f_equal. rewrite Hi.
  destruct (interiors shape) as [|r [|r' rs]]; simpl in *; [reflexivity .. | lia].
Qed.

(** Adding parts one by one appends them in order and touches nothing else. *)
Lemma fold_add_part {A : Type} (g : A -> KmlGeometry) (xs : list A)
    (parts : list KmlGeometry) (n : option string) (s : Style) :
  fold_left (fun multi x => add_part (g x) multi) xs
            (mkFeature (MultiGeometry parts) n s) =
  mkFeature (MultiGeometry (parts ++ map g xs)) n s.
Proof.
  revert parts. induction xs as [|x xs IH]; intros parts; simpl.
  - now rewrite app_nil_r.
  - unfold add_part at 2. simpl. rewrite IH. now rewrite <- app_assoc.
Qed.

Lemma fold_left_pointwise {A B : Type} (f g : A -> B -> A) (l : list B) (a : A) :
  (forall a x, f a x = g a x) -> fold_left f l a = fold_left g l a.
Proof.
  intros Hfg. revert a. induction l as [|x l IH]; intros a; simpl;
    [reflexivity | now rewrite Hfg, IH].
Qed.

Lemma fold_add_point (geoms : list Coord) (n : option string) :
  fold_left (fun multi point => let '(x, y) := point in add_part (KmlPoint [(x, y)]) multi)
            geoms (newmultigeometry n) =
  mkFeature (MultiGeometry (map (fun p => KmlPoint [p]) geoms)) n new_style.
Proof.
  unfold newmultigeometry.
  rewrite (fold_left_pointwise _ (fun multi p => add_part (KmlPoint [p]) multi))
    by (intros a [x y]; reflexivity).
  now rewrite fold_add_part.
Qed.

(** What [_style_polygon] leaves on a feature. *)
Lemma style_polygon_body (f : Feature) lc lw pf pc :
  body (_style_polygon f lc lw pf pc) = body f.
Proof.
  unfold _style_polygon.
  destruct (Py.truthy_int pf && Py.truthy_opt_str pc); [destruct pc|]; reflexivity.
Qed.

Lemma style_polygon_name (f : Feature) lc lw pf pc :
  name (_style_polygon f lc lw pf pc) = name f.
Proof.
  unfold _style_polygon.
  destruct (Py.truthy_int pf && Py.truthy_opt_str pc); [destruct pc|]; reflexivity.
Qed.

Lemma style_polygon_label_scale (f : Feature) lc lw pf pc :
  labelstyle_scale (style (_style_polygon f lc lw pf pc)) = Some 0%Q.
Proof.
  unfold _style_polygon.
  destruct (Py.truthy_int pf && Py.truthy_opt_str pc); [destruct pc|]; reflexivity.
Qed.

Lemma style_polygon_fill (f : Feature) lc lw pf pc :
  polystyle_fill (style (_style_polygon f lc lw pf pc)) = Some pf.
Proof.
  unfold _style_polygon.
  destruct (Py.truthy_int pf && Py.truthy_opt_str pc); [destruct pc|]; reflexivity.
Qed.

Lemma style_polygon_color (f : Feature) lc lw pf pc :
  polystyle_color (style (_style_polygon f lc lw pf pc)) =
  if Py.truthy_int pf && Py.truthy_opt_str pc then pc
  else polystyle_color (style f).
Proof.
  unfold _style_polygon.
  destruct (Py.truthy_int pf && Py.truthy_opt_str pc) eqn:H;
    [destruct pc; [reflexivity|] | reflexivity].
  now rewrite andb_false_r in H.
Qed.

(** Where every polygon has at most one hole, the feature built for a
    record carries exactly the vertices of its geometry. *)
Lemma build_feature_body (cfg : Config) (label : string) (geom : Geometry) :
  at_most_one_hole geom ->
  option_map body (build_feature cfg label geom) = spec_body geom.
Proof.
  destruct geom as [x y|geoms|coords|geoms|shape|geoms|coords|geoms];
    intros Hholes; cbn [build_feature option_map spec_body].
  - reflexivity.
  - now rewrite fold_add_point.
  - now rewrite xy_list_id.
  - unfold newmultigeometry.
    rewrite (fold_add_part (fun line => KmlLineString (xy_list line))). simpl.
    do 2 f_equal. apply map_ext. intros line. now rewrite xy_list_id.
  - rewrite style_polygon_body. simpl.
    now rewrite assign_boundaries_at_most_one_hole.
  - unfold newmultigeometry.
    rewrite (fold_add_part
               (fun polygon => KmlPolygonGeom (assign_boundaries polygon newpolygon))).
    rewrite style_polygon_body. simpl. do 2 f_equal. simpl in Hholes.
    induction Hholes as [|shape geoms Hshape _ IH]; simpl;
      [reflexivity | now rewrite IH, assign_boundaries_at_most_one_hole].
  - reflexivity.
  - reflexivity.
Qed.

(** A polygon with two or more holes keeps only the last one. *)
Lemma polygon_keeps_last_hole_only (cfg : Config) (label : string)
    (ext : list Coord) (holes : list (list Coord)) (r1 r2 : list Coord) :
  option_map body
    (build_feature cfg label (Polygon (mkPolygonShape ext (holes ++ [r1; r2])))) =
  Some (Single (KmlPolygonGeom (mkKmlPolygon ext [r2]))).
Proof.
  cbn [build_feature option_map]. rewrite style_polygon_body. simpl.
  pose proof (assign_boundaries_inner
                (mkPolygonShape ext (holes ++ [r1; r2])) newpolygon) as Hi.
  pose proof (assign_boundaries_outer
                (mkPolygonShape ext (holes ++ [r1; r2])) newpolygon) as Ho.
  destruct (assign_boundaries _ newpolygon) as [o i]. simpl in *.
  rewrite rev_app_distr in Hi. simpl in Hi. now subst.
Qed.

(** The feature of a polygonal record before styling: unnamed, fresh style. *)
Lemma build_polygonal (cfg : Config) (label : string) (geom : Geometry) :
  polygonal geom = true ->
  exists raw,
    build_feature cfg label geom =
      Some (_style_polygon raw (line_color cfg) (line_width cfg)
                           (poly_fill cfg) (poly_color cfg)) /\
    name raw = None /\ style raw = new_style.
Proof.
  destruct geom; try discriminate; intros _; cbn [build_feature].
  - eexists. split; [reflexivity | now split].
  - unfold newmultigeometry. rewrite fold_add_part.
    eexists. split; [reflexivity | now split].
Qed.

Lemma truthy_str_spec (s : string) : Py.truthy_str s = true <-> s <> "".
Proof. destruct s; simpl; split; congruence. Qed.

Lemma truthy_int_spec (n : Z) : Py.truthy_int n = true <-> n <> 0%Z.
Proof.
  unfold Py.truthy_int. rewrite negb_true_iff. apply Z.eqb_neq.
Qed.

Lemma in_columns_spec (c : string) (cols : list string) :
  in_columns c cols = true <-> In c cols.
Proof.
  unfold in_columns. rewrite existsb_exists. split.
  - intros [x [Hin Heq]]. apply String.eqb_eq in Heq. now subst.
  - intros Hin. exists c. split; [exact Hin | apply String.eqb_refl].
Qed.

(* ===================================================================== *)
(** ** The loop *)
(* ===================================================================== *)

Lemma polygonal_geom_type (geom : Geometry) :
  existsb (String.eqb (geom_type geom)) ["Polygon"; "MultiPolygon"] = polygonal geom.
Proof. destruct geom; reflexivity. Qed.

Lemma build_feature_supported (cfg : Config) (label : string) (geom : Geometry) :
  existsb (String.eqb (geom_type geom)) supported_kinds =
  match build_feature cfg label geom with Some _ => true | None => false end.
Proof. destruct geom; reflexivity. Qed.

Lemma unsupported_kind (geom : Geometry) :
  ~ In (geom_type geom) supported_kinds <->
  existsb (String.eqb (geom_type geom)) supported_kinds = false.
Proof.
  split.
  - intros Hnot. destruct (existsb _ supported_kinds) eqn:H; [|reflexivity].
    apply existsb_exists in H as [k [Hin Heq]].
    apply String.eqb_eq in Heq. now subst.
  - intros H Hin.
    assert (existsb (String.eqb (geom_type geom)) supported_kinds = true) as Ht
      by (apply existsb_exists; exists (geom_type geom);
          split; [exact Hin | apply String.eqb_refl]).
    congruence.
Qed.

Section Loop.

Variable centroid : Geometry -> Coord.
Variable cfg : Config.
Variable cols : list string.

(** One iteration appends the record's features to the document and its
    diagnostics to the console, and changes nothing else. *)
Lemma export_row_appends (st : Progress) (row : Row) :
  export_row centroid cfg cols st row =
  mkProgress (kml st ++ record_features centroid cfg cols row)
             (printed st ++ record_diagnostics row).
Proof.
  unfold export_row, record_features, record_diagnostics.
  destruct (geometry row) as [geom|].
  - rewrite polygonal_geom_type.
    rewrite (build_feature_supported cfg (resolve_label cfg cols row) geom).
    destruct (build_feature cfg (resolve_label cfg cols row) geom) as [f|].
    + cbn [kml printed].
      destruct (polygonal geom && show_labels cfg
                && Py.truthy_str (resolve_label cfg cols row)).
      * now rewrite <- app_assoc, app_nil_r.
      * now rewrite app_nil_r.
    + now rewrite app_nil_r.
  - destruct st. simpl. now rewrite !app_nil_r.
Qed.

Lemma export_rows_append (rws : list Row) (st : Progress) :
  fold_left (export_row centroid cfg cols) rws st =
  mkProgress (kml st ++ flat_map (record_features centroid cfg cols) rws)
             (printed st ++ flat_map record_diagnostics rws).
Proof.
  revert st. induction rws as [|row rws IH]; intros st; simpl.
  - destruct st. simpl. now rewrite !app_nil_r.
  - rewrite IH, export_row_appends. simpl. now rewrite <- !app_assoc.
Qed.

End Loop.

Lemma export_kml_document (to_crs : GeoDataFrame -> Z -> GeoDataFrame)
    (centroid : Geometry -> Coord) (gdf : GeoDataFrame) (path : string) (cfg : Config) :
  document (export_kml to_crs centroid gdf path cfg) =
  flat_map (record_features centroid cfg (columns (transcoded_frame to_crs gdf)))
           (rows (transcoded_frame to_crs gdf)).
Proof.
  unfold export_kml, transcoded_frame. cbn [document].
  now rewrite export_rows_append.
Qed.

Lemma export_kml_console (to_crs : GeoDataFrame -> Z -> GeoDataFrame)
    (centroid : Geometry -> Coord) (gdf : GeoDataFrame) (path : string) (cfg : Config) :
  console (export_kml to_crs centroid gdf path cfg) =
  (flat_map record_diagnostics (rows (transcoded_frame to_crs gdf))
   ++ [("KML saved to: " ++ path)%string])%list.
Proof.
  unfold export_kml, transcoded_frame. cbn [console].
  now rewrite export_rows_append.
Qed.

(* ===================================================================== *)
(** ** Labels *)
(* ===================================================================== *)

Lemma shown_label_scale_hidden (cfg : Config) (label : string) :
  show_labels cfg = false \/ label = "" -> shown_label_scale cfg label = 0%Q.
Proof.
  unfold shown_label_scale. intros [H|H]; rewrite H; simpl;
    [reflexivity | now rewrite andb_false_r].
Qed.

Lemma shown_label_scale_visible (cfg : Config) (label : string) :
  show_labels cfg = true -> label <> "" -> shown_label_scale cfg label = label_scale cfg.
Proof.
  unfold shown_label_scale. intros Hshow Hlabel.
  apply truthy_str_spec in Hlabel. now rewrite Hshow, Hlabel.
Qed.

(** The feature of a point or line record: named as [shown_name] says, with
    the label scale [shown_label_scale] and the configured label colour. *)
Lemma build_point_or_line (cfg : Config) (label : string) (geom : Geometry) :
  point_or_line geom = true ->
  exists f,
    build_feature cfg label geom = Some f /\
    name f = shown_name cfg label /\
    labelstyle_scale (style f) = Some (shown_label_scale cfg label) /\
    labelstyle_color (style f) = Some (label_color cfg).
Proof.
  destruct geom; try discriminate; intros _; cbn [build_feature];
    eexists; (split; [reflexivity|]).
  - now repeat split.
  - rewrite fold_add_point. now repeat split.
  - now repeat split.
  - unfold newmultigeometry. rewrite fold_add_part. now repeat split.
Qed.

Lemma point_or_line_not_polygonal (geom : Geometry) :
  point_or_line geom = true -> polygonal geom = false.
Proof. destruct geom; simpl; congruence. Qed.

Section Records.

Variable centroid : Geometry -> Coord.
Variable cfg : Config.
Variable cols : list string.

Lemma record_point_or_line (row : Row) (geom : Geometry) :
  geometry row = Some geom -> point_or_line geom = true ->
  exists f,
    build_feature cfg (resolve_label cfg cols row) geom = Some f /\
    record_features centroid cfg cols row = [f] /\
    record_diagnostics row = [].
Proof.
  intros Hgeom Hkind.
  destruct (build_point_or_line cfg (resolve_label cfg cols row) geom Hkind)
    as [f [Hf _]].
  exists f. split; [exact Hf|].
  unfold record_features, record_diagnostics. rewrite Hgeom.
  rewrite (build_feature_supported cfg (resolve_label cfg cols row)), Hf.
  now rewrite (point_or_line_not_polygonal geom Hkind).
Qed.

Lemma record_polygonal (row : Row) (geom : Geometry) :
  geometry row = Some geom -> polygonal geom = true ->
  exists pf,
    build_feature cfg (resolve_label cfg cols row) geom = Some pf /\
    record_features centroid cfg cols row =
      (if show_labels cfg && Py.truthy_str (resolve_label cfg cols row)
       then [pf; centroid_label centroid cfg (resolve_label cfg cols row) geom]
       else [pf]) /\
    record_diagnostics row = [].
Proof.
  intros Hgeom Hkind.
  destruct (build_polygonal cfg (resolve_label cfg cols row) geom Hkind)
    as [raw [Hf _]].
  eexists. split; [exact Hf|].
  unfold record_features, record_diagnostics. rewrite Hgeom.
  rewrite (build_feature_supported cfg (resolve_label cfg cols row)), Hf.
  now rewrite Hkind.
Qed.

(** C2.  For a point, multipoint, line or multiline record the loop adds
    exactly one feature; its label style scale is 0 when [show_labels] is
    false or the label is empty, whatever [label_scale] is, and is
    [label_scale] otherwise. *)
Theorem point_line_label_scale (st : Progress) (row : Row) (geom : Geometry) :
  geometry row = Some geom -> point_or_line geom = true ->
  exists f,
    export_row centroid cfg cols st row = mkProgress (kml st ++ [f]) (printed st) /\
    (show_labels cfg = false \/ resolve_label cfg cols row = "" ->
     labelstyle_scale (style f) = Some 0%Q) /\
    (show_labels cfg = true /\ resolve_label cfg cols row <> "" ->
     labelstyle_scale (style f) = Some (label_scale cfg)).
Proof.
  intros Hgeom Hkind.
  destruct (record_point_or_line row geom Hgeom Hkind) as [f [Hf [Hrec Hdiag]]].
  destruct (build_point_or_line cfg (resolve_label cfg cols row) geom Hkind)
    as [f' [Hf' [_ [Hscale _]]]].
  assert (f' = f) as -> by congruence.
  exists f. split; [|split].
  - rewrite export_row_appends, Hrec, Hdiag. now rewrite app_nil_r.
  - intros Hhidden. now rewrite Hscale, shown_label_scale_hidden.
  - intros [Hshow Hlabel]. now rewrite Hscale, shown_label_scale_visible.
Qed.

(** C3.  For a Polygon or MultiPolygon record: when [show_labels] is true
    and the label is non-empty the loop adds the polygon feature and,
    right after it, exactly one point feature at the centroid of the
    record's geometry, named with the label, with icon scale 0 and with the
    configured label scale and colour; when [show_labels] is false or the
    label is empty it adds the polygon feature alone. *)
Theorem polygon_centroid_label (st : Progress) (row : Row) (geom : Geometry) :
  geometry row = Some geom -> polygonal geom = true ->
  exists pf,
    build_feature cfg (resolve_label cfg cols row) geom = Some pf /\
    (show_labels cfg = true /\ resolve_label cfg cols row <> "" ->
     exists cl,
       kml (export_row centroid cfg cols st row) = (kml st ++ [pf; cl])%list /\
       body cl = Single (KmlPoint [centroid geom]) /\
       name cl = Some (resolve_label cfg cols row) /\
       iconstyle_scale (style cl) = Some 0%Q /\
       labelstyle_scale (style cl) = Some (label_scale cfg) /\
       labelstyle_color (style cl) = Some (label_color cfg)) /\
    (show_labels cfg = false \/ resolve_label cfg cols row = "" ->
     kml (export_row centroid cfg cols st row) = (kml st ++ [pf])%list).
Proof.
  intros Hgeom Hkind.
  destruct (record_polygonal row geom Hgeom Hkind) as [pf [Hf [Hrec _]]].
  exists pf. split; [exact Hf|]. rewrite export_row_appends, Hrec. cbn [kml].
  split.
  - intros [Hshow Hlabel]. apply truthy_str_spec in Hlabel.
    rewrite Hshow, Hlabel. cbn [andb].
    eexists. split; [reflexivity|].
    unfold centroid_label. destruct (centroid geom) as [x y]. now repeat split.
  - intros [Hshow|Hlabel].
    + now rewrite Hshow.
    + rewrite Hlabel. cbn [Py.truthy_str]. now rewrite andb_false_r.
Qed.

(** C7.  The feature the loop adds first for a Polygon or MultiPolygon
    record is the polygon feature; it has no name and its own label style
    scale is 0, whatever [show_labels] and the label are. *)
Theorem polygon_feature_unlabelled (st : Progress) (row : Row) (geom : Geometry) :
  geometry row = Some geom -> polygonal geom = true ->
  exists pf rest,
    kml (export_row centroid cfg cols st row) = (kml st ++ pf :: rest)%list /\
    build_feature cfg (resolve_label cfg cols row) geom = Some pf /\
    name pf = None /\
    labelstyle_scale (style pf) = Some 0%Q.
Proof.
  intros Hgeom Hkind.
  destruct (record_polygonal row geom Hgeom Hkind) as [pf [Hf [Hrec _]]].
  destruct (build_polygonal cfg (resolve_label cfg cols row) geom Hkind)
    as [raw [Hraw [Hname _]]].
  assert (pf = _style_polygon raw (line_color cfg) (line_width cfg)
                              (poly_fill cfg) (poly_color cfg)) as Hpf by congruence.
  exists pf.
  exists (if show_labels cfg && Py.truthy_str (resolve_label cfg cols row)
          then [centroid_label centroid cfg (resolve_label cfg cols row) geom]
          else []).
  split; [|split; [exact Hf | split]].
  - rewrite export_row_appends, Hrec. cbn [kml].
    now destruct (show_labels cfg && Py.truthy_str (resolve_label cfg cols row)).
  - subst pf. now rewrite style_polygon_name.
  - subst pf. apply style_polygon_label_scale.
Qed.

(** A record whose geometry is [None] leaves the document and the console as
    they were; a record whose geometry kind has no branch leaves the
    document as it was and prints one warning that names the kind.  In
    both cases the loop goes on with the records that follow, as if the
    record were not there. *)
Theorem skipped_records (st : Progress) (before after : list Row) (row : Row) :
  (geometry row = None ->
   export_row centroid cfg cols st row = st) /\
  (forall geom,
      geometry row = Some geom -> ~ In (geom_type geom) supported_kinds ->
      export_row centroid cfg cols st row =
        mkProgress (kml st) (printed st ++ [unsupported_warning (geom_type geom)]) /\
      Substring (geom_type geom) (unsupported_warning (geom_type geom))) /\
  (geometry row = None \/
   (exists geom, geometry row = Some geom /\ ~ In (geom_type geom) supported_kinds) ->
   fold_left (export_row centroid cfg cols) (before ++ row :: after) st =
     fold_left (export_row centroid cfg cols) after
       (export_row centroid cfg cols
          (fold_left (export_row centroid cfg cols) before st) row) /\
   kml (fold_left (export_row centroid cfg cols) (before ++ row :: after) st) =
     kml (fold_left (export_row centroid cfg cols) (before ++ after) st)).
Proof.
  assert (forall geom, geometry row = Some geom ->
                       ~ In (geom_type geom) supported_kinds ->
                       record_features centroid cfg cols row = [] /\
                       record_diagnostics row = [unsupported_warning (geom_type geom)])
    as Hunsupported.
  { intros geom Hgeom Hkind. apply unsupported_kind in Hkind.
    unfold record_features, record_diagnostics. rewrite Hgeom, Hkind.
    rewrite (build_feature_supported cfg (resolve_label cfg cols row)) in Hkind.
    now destruct (build_feature cfg (resolve_label cfg cols row) geom). }
  split; [|split].
  - intros Hnone. unfold export_row. now rewrite Hnone.
  - intros geom Hgeom Hkind.
    destruct (Hunsupported geom Hgeom Hkind) as [Hrec Hdiag]. split.
    + rewrite export_row_appends, Hrec, Hdiag. now rewrite app_nil_r.
    + exists "Warning: Unsupported geometry type '", "' skipped.". reflexivity.
  - intros Hskip. split.
    + now rewrite fold_left_app.
    + assert (record_features centroid cfg cols row = []) as Hrec.
      { destruct Hskip as [Hnone|[geom [Hgeom Hkind]]].
        - unfold record_features. now rewrite Hnone.
        - now destruct (Hunsupported geom Hgeom Hkind). }
      rewrite !export_rows_append. cbn [kml].
      rewrite !flat_map_app. simpl. now rewrite Hrec.
Qed.

End Records.

(* ===================================================================== *)
(** ** Polygon fill *)
(* ===================================================================== *)

Lemma truthy_opt_str_spec (o : option string) :
  Py.truthy_opt_str o = true <-> o <> None /\ o <> Some "".
Proof.
  destruct o as [[|c s]|]; simpl; split; try discriminate.
  - intros [_ H]. now contradiction H.
  - intros _. split; discriminate.
  - intros _. reflexivity.
  - intros [H _]. now contradiction H.
Qed.

(** C4 (as amended).  On the feature of a Polygon or MultiPolygon record a
    fill colour is set if and only if [poly_fill] is truthy and
    [poly_color] is truthy, that is neither [None] nor the empty string;
    when it is set it is [poly_color]; with [poly_fill] off, or with
    [poly_color] [None], none is set; and the fill flag is always the given
    [poly_fill], so with [poly_fill] on and no colour the flag is on and no
    colour is set. *)
Theorem polygon_fill_color (cfg : Config) (label : string) (geom : Geometry)
    (f : Feature) :
  polygonal geom = true ->
  build_feature cfg label geom = Some f ->
  (polystyle_color (style f) <> None <->
   (poly_fill cfg <> 0%Z /\ poly_color cfg <> None /\ poly_color cfg <> Some "")) /\
  (polystyle_color (style f) <> None -> polystyle_color (style f) = poly_color cfg) /\
  (poly_fill cfg = 0%Z -> polystyle_color (style f) = None) /\
  (poly_color cfg = None -> polystyle_color (style f) = None) /\
  polystyle_fill (style f) = Some (poly_fill cfg).
Proof.
  intros Hkind Hf.
  destruct (build_polygonal cfg label geom Hkind) as [raw [Hraw [_ Hstyle]]].
  assert (f = _style_polygon raw (line_color cfg) (line_width cfg)
                             (poly_fill cfg) (poly_color cfg)) as -> by congruence.
  rewrite style_polygon_color, style_polygon_fill, Hstyle.
  cbn [polystyle_color new_style].
  assert (Py.truthy_int (poly_fill cfg) && Py.truthy_opt_str (poly_color cfg) = true
          <-> poly_fill cfg <> 0%Z /\ poly_color cfg <> None /\ poly_color cfg <> Some "")
    as Hgate by (now rewrite andb_true_iff, truthy_int_spec, truthy_opt_str_spec).
  destruct (Py.truthy_int (poly_fill cfg) && Py.truthy_opt_str (poly_color cfg)).
  - destruct (proj1 Hgate eq_refl) as [Hfill [Hsome Hnonempty]].
    split; [|split; [|split; [|split]]].
    + split; [intros _; now repeat split | intros _; exact Hsome].
    + reflexivity.
    + intros Hzero. contradiction.
    + intros Hnone. exact Hnone.
    + reflexivity.
  - assert (~ (poly_fill cfg <> 0%Z /\ poly_color cfg <> None /\
               poly_color cfg <> Some "")) as Hoff
      by (intros H; apply Hgate in H; discriminate).
    split; [|split; [|split; [|split]]].
    + split; [intros H; now contradiction H | intros H; contradiction].
    + intros H. now contradiction H.
    + reflexivity.
    + reflexivity.
    + reflexivity.
Qed.

(** C4 (as stated) fails: with [poly_fill] on and the empty string as
    [poly_color], which is not [None], no fill colour is set. *)
Lemma empty_fill_color_is_not_set :
  poly_fill empty_color_config <> 0%Z /\
  poly_color empty_color_config <> None /\
  option_map (fun f => polystyle_color (style f))
             (build_feature empty_color_config "" square_one_hole) = Some None.
Proof. split; [discriminate | split; [discriminate | reflexivity]]. Qed.

(* ===================================================================== *)
(** ** The whole run *)
(* ===================================================================== *)

Lemma needs_reprojection_spec (gdf : GeoDataFrame) :
  needs_reprojection gdf = true <->
  exists c, crs gdf = Some c /\ to_epsg c <> Some 4326%Z.
Proof.
  unfold needs_reprojection. destruct (crs gdf) as [[[code|]]|]; simpl.
  - rewrite negb_true_iff, Z.eqb_neq. split.
    + intros Hne. eexists. split; [reflexivity | simpl; congruence].
    + intros [c [Hc Hne]]. injection Hc as <-. simpl in Hne. congruence.
  - split; [intros _ | reflexivity].
    eexists. split; [reflexivity | discriminate].
  - split; [discriminate | intros [c [Hc _]]; discriminate].
Qed.

(** C8.  [export_kml] asks for a reprojection, to EPSG 4326, exactly when
    the frame has a reference system whose EPSG code is not 4326, and then
    transcodes the reprojected frame; it asks for none when the code is
    4326 or when the frame has no reference system, and then transcodes the
    rows of the frame as they are. *)
Theorem reprojection_when_needed (to_crs : GeoDataFrame -> Z -> GeoDataFrame)
    (centroid : Geometry -> Coord) (gdf : GeoDataFrame) (path : string) (cfg : Config) :
  let run := export_kml to_crs centroid gdf path cfg in
  (to_crs_calls run = [4326%Z] <->
   exists c, crs gdf = Some c /\ to_epsg c <> Some 4326%Z) /\
  (to_crs_calls run = [] <->
   (crs gdf = None \/ exists c, crs gdf = Some c /\ to_epsg c = Some 4326%Z)) /\
  (to_crs_calls run = [4326%Z] ->
   document run = flat_map (record_features centroid cfg (columns (to_crs gdf 4326%Z)))
                           (rows (to_crs gdf 4326%Z))) /\
  (to_crs_calls run = [] ->
   document run = flat_map (record_features centroid cfg (columns gdf)) (rows gdf)).
Proof.
  intros run.
  assert (document run =
          flat_map (record_features centroid cfg (columns (transcoded_frame to_crs gdf)))
                   (rows (transcoded_frame to_crs gdf))) as Hdoc
    by apply export_kml_document.
  assert (to_crs_calls run = if needs_reprojection gdf then [4326%Z] else []) as Hcalls
    by reflexivity.
  unfold transcoded_frame in Hdoc. rewrite Hcalls.
  pose proof (needs_reprojection_spec gdf) as Hspec.
  destruct (needs_reprojection gdf).
  - split; [|split; [|split]].
    + split; [intros _; now apply Hspec | reflexivity].
    + split; [discriminate |].
      destruct (proj1 Hspec eq_refl) as [c [Hc Hne]].
      intros [Hnone|[c' [Hc' Hcode]]]; congruence.
    + intros _. exact Hdoc.
    + discriminate.
  - split; [|split; [|split]].
    + split; [discriminate | intros H; apply Hspec in H; discriminate].
    + split; [|reflexivity]. intros _.
      destruct (crs gdf) as [c|]; [|now left].
      right. exists c. split; [reflexivity|].
      destruct (to_epsg c) as [code|] eqn:He.
      * destruct (Z.eq_dec code 4326%Z) as [->|Hne]; [reflexivity|].
        assert (false = true) by (apply Hspec; exists c; split; congruence).
        discriminate.
      * assert (false = true) by (apply Hspec; exists c; split; congruence).
        discriminate.
    + discriminate.
    + intros _. exact Hdoc.
Qed.

(** A frame in UTM with a point, a record without geometry, a geometry
    collection, a polygon and a line: one reprojection is asked for, the
    collection is reported and skipped, the other records follow in order. *)
Example mixed_frame_run :
  let run := export_kml keep_crs first_vertex mixed_frame "out.kml" name_config in
  to_crs_calls run = [4326%Z] /\
  map name (document run) = [Some "A"; None; Some "None"; Some ""] /\
  console run =
    ["Warning: Unsupported geometry type 'GeometryCollection' skipped.";
     "KML saved to: out.kml"].
Proof. repeat split. Qed.

Lemma record_features_centroid_ext (c1 c2 : Geometry -> Coord) (cfg : Config)
    (cols : list string) (row : Row) :
  (forall geom, geometry row = Some geom -> polygonal geom = true -> c1 geom = c2 geom) ->
  record_features c1 cfg cols row = record_features c2 cfg cols row.
Proof.
  intros Hagree. unfold record_features.
  destruct (geometry row) as [geom|]; [|reflexivity].
  destruct (build_feature cfg (resolve_label cfg cols row) geom); [|reflexivity].
  destruct (polygonal geom) eqn:Hkind; [|reflexivity].
  unfold centroid_label. now rewrite (Hagree geom eq_refl Hkind).
Qed.

Lemma flat_map_ext_in {A B : Type} (f g : A -> list B) (l : list A) :
  (forall x, In x l -> f x = g x) -> flat_map f l = flat_map g l.
Proof.
  induction l as [|x l IH]; intros H; simpl; [reflexivity|].
  rewrite (H x (or_introl eq_refl)), IH; [reflexivity|].
  intros y Hy. apply H. now right.
Qed.

(** The run is a function of the frame, the path, the configuration
    and the two collaborators: two runs whose centroid computations agree
    on the polygonal geometries transcoded give the same run (the same
    document, path, console and reprojection requests).  The document is
    the concatenation, in record order, of what each record contributes:
    nothing, one feature, or a polygon feature followed by its centroid
    label. *)
Theorem export_kml_deterministic (to_crs : GeoDataFrame -> Z -> GeoDataFrame)
    (c1 c2 : Geometry -> Coord) (gdf : GeoDataFrame) (path : string) (cfg : Config) :
  (forall row geom,
      In row (rows (transcoded_frame to_crs gdf)) ->
      geometry row = Some geom -> polygonal geom = true -> c1 geom = c2 geom) ->
  export_kml to_crs c1 gdf path cfg = export_kml to_crs c2 gdf path cfg /\
  document (export_kml to_crs c1 gdf path cfg) =
    flat_map (record_features c1 cfg (columns (transcoded_frame to_crs gdf)))
             (rows (transcoded_frame to_crs gdf)) /\
  (forall row,
      In row (rows (transcoded_frame to_crs gdf)) ->
      let label := resolve_label cfg (columns (transcoded_frame to_crs gdf)) row in
      let contributed :=
        record_features c1 cfg (columns (transcoded_frame to_crs gdf)) row in
      contributed = [] \/
      (exists f, contributed = [f]) \/
      (exists pf geom,
          geometry row = Some geom /\ polygonal geom = true /\
          contributed = [pf; centroid_label c1 cfg label geom])).
Proof.
  intros Hagree. split; [|split].
  - assert (forall c, export_kml to_crs c gdf path cfg =
                      mkRun (to_crs_calls (export_kml to_crs c gdf path cfg))
                            (document (export_kml to_crs c gdf path cfg))
                            (saved_to (export_kml to_crs c gdf path cfg))
                            (console (export_kml to_crs c gdf path cfg))) as Heta
      by reflexivity.
    rewrite (Heta c1), (Heta c2), !export_kml_document, !export_kml_console.
    f_equal. apply flat_map_ext_in. intros row Hin.
    apply record_features_centroid_ext. intros geom. now apply Hagree.
  - apply export_kml_document.
  - intros row _ label contributed. subst contributed label.
    unfold record_features.
    destruct (geometry row) as [geom|]; [|now left].
    destruct (build_feature cfg _ geom) as [f|]; [|now left].
    destruct (polygonal geom) eqn:Hkind; cbn [andb].
    + destruct (show_labels cfg && Py.truthy_str _).
      * right. right. exists f, geom. now repeat split.
      * right. left. now exists f.
    + right. left. now exists f.
Qed.

(* ===================================================================== *)
(** ** Label resolution *)
(* ===================================================================== *)

(** C10.  The label is [str] of the cell of the label column.  When that
    column is not a column of the frame (or none is given) the label is the
    empty string, and nothing is raised.  When the cell is [None] or NaN
    the label is the text "None" or "nan", which is not empty; so, with
    [show_labels] on, a point or line feature is named with it and keeps
    the configured label scale, and a polygon record gets its centroid
    label, named with it, at the configured label scale. *)
Theorem null_cell_label_is_visible (centroid : Geometry -> Coord) (cfg : Config)
    (cols : list string) (row : Row) :
  (label_col cfg = None -> resolve_label cfg cols row = "") /\
  (forall c, label_col cfg = Some c -> ~ In c cols -> resolve_label cfg cols row = "") /\
  (forall c,
      label_col cfg = Some c -> c <> "" -> In c cols ->
      resolve_label cfg cols row = py_str (getitem cols (cells row) c)) /\
  (forall c,
      label_col cfg = Some c -> c <> "" -> In c cols ->
      getitem cols (cells row) c = CNone \/ getitem cols (cells row) c = CNaN ->
      let label := resolve_label cfg cols row in
      (label = "None" \/ label = "nan") /\
      label <> "" /\
      (show_labels cfg = true ->
       forall st geom,
         geometry row = Some geom ->
         (point_or_line geom = true ->
          exists f,
            kml (export_row centroid cfg cols st row) = (kml st ++ [f])%list /\
            name f = Some label /\
            labelstyle_scale (style f) = Some (label_scale cfg)) /\
         (polygonal geom = true ->
          exists pf cl,
            kml (export_row centroid cfg cols st row) = (kml st ++ [pf; cl])%list /\
            cl = centroid_label centroid cfg label geom /\
            name cl = Some label /\
            labelstyle_scale (style cl) = Some (label_scale cfg)))).
Proof.
  assert (forall c, label_col cfg = Some c -> c <> "" -> In c cols ->
                    resolve_label cfg cols row = py_str (getitem cols (cells row) c))
    as Hstr.
  { intros c Hc Hne Hin. unfold resolve_label. rewrite Hc.
    apply truthy_str_spec in Hne. apply in_columns_spec in Hin.
    now rewrite Hne, Hin. }
  split; [|split; [|split; [exact Hstr|]]].
  - intros Hnone. unfold resolve_label. now rewrite Hnone.
  - intros c Hc Hnotin. unfold resolve_label. rewrite Hc.
    destruct (in_columns c cols) eqn:Hin.
    + apply in_columns_spec in Hin. contradiction.
    + now rewrite andb_false_r.
  - intros c Hc Hne Hin Hcell label.
    assert (label = "None" \/ label = "nan") as Htext.
    { unfold label. rewrite (Hstr c Hc Hne Hin).
      destruct Hcell as [-> | ->]; [now left | now right]. }
    assert (label <> "") as Hvisible
      by (destruct Htext as [-> | ->]; discriminate).
    split; [exact Htext | split; [exact Hvisible|]].
    intros Hshow st geom Hgeom. split; intros Hkind.
    + destruct (record_point_or_line centroid cfg cols row geom Hgeom Hkind)
        as [f [Hf [Hrec _]]].
      destruct (build_point_or_line cfg label geom Hkind) as [f' [Hf' [Hname [Hscale _]]]].
      assert (f' = f) as -> by (unfold label in Hf'; congruence).
      exists f. split; [|split].
      * rewrite export_row_appends, Hrec. reflexivity.
      * rewrite Hname. unfold shown_name. now rewrite Hshow.
      * now rewrite Hscale, shown_label_scale_visible.
    + destruct (record_polygonal centroid cfg cols row geom Hgeom Hkind)
        as [pf [Hf [Hrec _]]].
      apply truthy_str_spec in Hvisible. unfold label in Hvisible.
      rewrite Hshow, Hvisible in Hrec. cbn [andb] in Hrec.
      exists pf, (centroid_label centroid cfg label geom). split; [|split; [|split]].
      * rewrite export_row_appends, Hrec. reflexivity.
      * reflexivity.
      * reflexivity.
      * reflexivity.
Qed.

(** A record whose name cell is [None], transcoded with labels on: the
    polygon is followed by a centroid label that reads "None". *)
Example null_name_polygon_is_labelled :
  map name (kml (export_row first_vertex name_config ["name"]
                            (mkProgress [] []) null_name_row)) =
  [None; Some "None"].
Proof. reflexivity. Qed.

(* ===================================================================== *)
(** ** Coordinates *)
(* ===================================================================== *)

(** The same loop builds every part of a MultiPolygon. *)
Example multipolygon_part_keeps_last_hole :
  option_map body
    (build_feature default_config ""
       (MultiPolygon [mkPolygonShape square [hole_a; hole_b]])) =
  Some (MultiGeometry [KmlPolygonGeom (mkKmlPolygon square [hole_b])]).
Proof. reflexivity. Qed.

(** One point record named "A" under the default styling. *)
Example point_with_default_style :
  document (export_kml keep_crs first_vertex
              (mkGeoDataFrame (Some wgs84) ["name"] [point_row]) "out.kml"
              (mkConfig (Some "name") true Color_red 1.5%Q 0%Z None
                        Color_white 1%Q 1%Q Color_red)) =
  [mkFeature (Single (KmlPoint [(1%Q, 2%Q)])) (Some "A")
             (mkStyle (Some 1%Q) (Some Color_red) (Some 1%Q) (Some Color_white)
                      None None None None)].
Proof. reflexivity. Qed.

(** C1, at a polygon with two holes.  The specified feature carries the
    outer ring and then both holes; the feature in the document carries the
    outer ring and the second hole only, because each assignment to
    [innerboundaryis] in the loop over the interiors replaces the ring
    assigned before it. *)
Theorem two_hole_polygon_loses_first_hole :
  let run := export_kml keep_crs first_vertex two_holes_frame "out.kml" name_config in
  map body (document run) =
    [Single (KmlPolygonGeom (mkKmlPolygon square [hole_b]));
     Single (KmlPoint [(0%Q, 0%Q)])] /\
  spec_body square_two_holes =
    Some (Single (KmlPolygonGeom (mkKmlPolygon square [hole_a; hole_b]))) /\
  option_map body (hd_error (document run)) <> spec_body square_two_holes.
Proof.
  split; [reflexivity | split; [reflexivity | discriminate]].
Qed.

(* ===================================================================== *)
(** ** The theorems at sample records *)
(* ===================================================================== *)

(** A point named "A", labels on, label scale 2. *)
Lemma point_line_label_scale_witness :
  exists f,
    export_row first_vertex name_config ["name"] (mkProgress [] []) point_row =
      mkProgress [f] [] /\
    labelstyle_scale (style f) = Some 2%Q.
Proof.
  destruct (point_line_label_scale first_vertex name_config ["name"]
              (mkProgress [] []) point_row (Point 1%Q 2%Q) eq_refl eq_refl)
    as [f [Hrow [_ Hvisible]]].
  exists f. split; [exact Hrow|].
  apply Hvisible. split; [reflexivity | discriminate].
Defined.

(** A square with one hole named "Zone1", labels on. *)
Lemma polygon_centroid_label_witness :
  exists pf cl,
    kml (export_row first_vertex name_config ["name"] (mkProgress [] []) zone_row) =
      [pf; cl] /\
    body cl = Single (KmlPoint [(0%Q, 0%Q)]) /\
    name cl = Some "Zone1" /\
    iconstyle_scale (style cl) = Some 0%Q.
Proof.
  destruct (polygon_centroid_label first_vertex name_config ["name"]
              (mkProgress [] []) zone_row square_one_hole eq_refl eq_refl)
    as [pf [_ [Hlabelled _]]].
  destruct Hlabelled as [cl [Hkml [Hbody [Hname [Hicon _]]]]];
    [split; [reflexivity | discriminate]|].
  exists pf, cl. now repeat split.
Defined.

Lemma polygon_feature_unlabelled_witness :
  exists pf rest,
    kml (export_row first_vertex name_config ["name"] (mkProgress [] []) zone_row) =
      pf :: rest /\
    name pf = None /\
    labelstyle_scale (style pf) = Some 0%Q.
Proof.
  destruct (polygon_feature_unlabelled first_vertex name_config ["name"]
              (mkProgress [] []) zone_row square_one_hole eq_refl eq_refl)
    as [pf [rest [Hkml [_ [Hname Hscale]]]]].
  exists pf, rest. now repeat split.
Defined.

(** Fill on with a colour: the colour is set. *)
Lemma polygon_fill_color_witness :
  option_map (fun f => polystyle_color (style f))
             (build_feature name_config "Zone1" square_one_hole) =
  Some (Some "7f00ff00").
Proof.
  destruct (build_feature name_config "Zone1" square_one_hole) as [f|] eqn:Hf;
    [|vm_compute in Hf; discriminate Hf].
  destruct (polygon_fill_color name_config "Zone1" square_one_hole f eq_refl Hf)
    as [Hiff [Hset _]].
  simpl. f_equal. apply Hset. apply Hiff.
  split; [discriminate | split; discriminate].
Defined.

(** Two centroid computations that agree on polygons give the same run. *)
Lemma export_kml_deterministic_witness :
  export_kml keep_crs first_vertex mixed_frame "out.kml" name_config =
  export_kml keep_crs polygon_vertex mixed_frame "out.kml" name_config.
Proof.
  refine (proj1 (export_kml_deterministic keep_crs first_vertex polygon_vertex
                   mixed_frame "out.kml" name_config _)).
  intros row geom _ _ Hkind. unfold polygon_vertex. now rewrite Hkind.
Defined.

(* ===================================================================== *)
(** ** Geodatabase paths *)
(* ===================================================================== *)

Lemma substring_tail (sub s : string) (c : ascii) :
  ~ Substring sub (String c s) -> ~ Substring sub s.
Proof.
  intros Hno [pre [post H]]. apply Hno.
  exists (String c pre), post. simpl. now rewrite H.
Qed.

(** [.gdb] cannot start inside a text that does not contain it and run over
    into a [.gdb] that follows the text. *)
Lemma gdb_not_across (c : ascii) (g rest : string) :
  ~ Substring ".gdb" (String c g) ->
  String.prefix ".gdb" (String c (g ++ ".gdb" ++ rest)) = false.
Proof.
  intros Hno.
  destruct (String.prefix ".gdb" (String c (g ++ ".gdb" ++ rest))) eqn:Hp;
    [|reflexivity].
  apply prefix_spec in Hp as [post H]. exfalso.
  destruct g as [|a [|b [|d g]]]; simpl in H; try congruence.
  injection H as -> -> -> -> _.
  apply Hno. now exists "", g.
Qed.

(** The first piece of the split is the text before the first [.gdb]. *)
Lemma item0_split_gdb (g rest : string) :
  ~ Substring ".gdb" g ->
  Py.item0 (Py.split ".gdb" (g ++ ".gdb" ++ rest)) = g.
Proof.
  induction g as [|c g IH]; intros Hno.
  - cbn [append]. rewrite item0_split_cons.
    assert (String.prefix ".gdb" (".gdb" ++ rest) = true) as Hp
      by (apply prefix_spec; now exists rest).
    cbn [append] in Hp. now rewrite Hp.
  - change (String c g ++ ".gdb" ++ rest) with (String c (g ++ ".gdb" ++ rest)).
    rewrite item0_split_cons, (gdb_not_across c g rest Hno).
    now rewrite (IH (substring_tail _ _ _ Hno)).
Qed.

Lemma rfind_absent (c : ascii) (p : string) :
  ~ Substring (String c "") p -> Py.rfind c p = (-1)%Z.
Proof.
  intros Hno.
  destruct (rfind_spec c p) as [[Hr _]|[pre [post [Hp _]]]]; [exact Hr|].
  exfalso. apply Hno. now exists pre, post.
Qed.

Lemma rfind_last (c : ascii) (pre post : string) :
  ~ Substring (String c "") post ->
  Py.rfind c (pre ++ String c post) = Z.of_nat (String.length pre).
Proof.
  intros Hno. induction pre as [|a pre IH].
  - cbn [append Py.rfind]. rewrite (rfind_absent c post Hno).
    simpl (0 <=? -1)%Z. cbv iota. now rewrite Ascii.eqb_refl.
  - cbn [append Py.rfind]. rewrite IH.
    destruct (Z.leb_spec 0 (Z.of_nat (String.length pre))); [|lia].
    simpl String.length. lia.
Qed.

(** The base name of a directory part followed by a name without [/]. *)
Lemma basename_of_name (dir fc : string) :
  dir = "" \/ EndsWith "/" dir -> ~ Substring "/" fc ->
  Py.basename (dir ++ fc) = fc.
Proof.
  intros [->|[pre ->]] Hno; unfold Py.basename.
  - cbn [append]. now rewrite (rfind_absent _ fc Hno).
  - rewrite append_assoc. cbn [append]. rewrite (rfind_last _ pre fc Hno).
    replace (Z.to_nat (Z.of_nat (String.length pre) + 1))
      with (String.length (pre ++ "/")) by (rewrite length_append; simpl; lia).
    replace (pre ++ String "/"%char fc) with ((pre ++ "/") ++ fc)
      by (now rewrite append_assoc).
    apply drop_append.
Qed.

Lemma char_in_append (c : ascii) (a b : string) :
  Substring (String c "") (a ++ b) ->
  Substring (String c "") a \/ Substring (String c "") b.
Proof.
  induction a as [|x a IH]; intros [pre [post H]].
  - right. now exists pre, post.
  - destruct pre as [|y pre]; simpl in H.
    + injection H as -> _. left. now exists "", a.
    + injection H as _ H.
      destruct IH as [[p [q Ha]]|Hb]; [now exists pre, post | |now right].
      left. exists (String x p), q. simpl. now rewrite Ha.
Qed.

(** X1.  A feature-class path put together from a geodatabase path ending
    in [.gdb], a [/], any feature-dataset part and a feature-class name is
    taken apart again as it was put together: the reader is sent to that
    geodatabase for that feature class. *)
Theorem gdb_path_round_trip (read_file : ReadCall -> result GeoDataFrame)
    (g ds fc : string) :
  ~ Substring ".gdb" g ->
  ds = "" \/ EndsWith "/" ds ->
  ~ Substring "/" fc ->
  ~ Substring ".shp" (g ++ ".gdb" ++ "/" ++ ds ++ fc) ->
  esri_to_gdf read_file (g ++ ".gdb" ++ "/" ++ ds ++ fc) =
  read_file (ReadLayer (g ++ ".gdb") fc).
Proof.
  intros Hg Hds Hfc Hshp. unfold esri_to_gdf.
  apply str_in_false in Hshp. rewrite Hshp.
  assert (Py.str_in ".gdb" (g ++ ".gdb" ++ "/" ++ ds ++ fc) = true) as ->
    by (apply str_in_spec; now exists g, ("/" ++ ds ++ fc)).
  cbv zeta. rewrite (item0_split_gdb g ("/" ++ ds ++ fc) Hg).
  replace (g ++ ".gdb" ++ "/" ++ ds ++ fc) with ((g ++ ".gdb" ++ "/" ++ ds) ++ fc)
    by (now rewrite !append_assoc).
  rewrite basename_of_name; [reflexivity | | exact Hfc].
  right. destruct Hds as [->|[pre ->]].
  - exists (g ++ ".gdb"). now rewrite append_nil_r, !append_assoc.
  - exists (g ++ ".gdb" ++ "/" ++ pre). now rewrite !append_assoc.
Qed.

(** X2.  A path that stops at the geodatabase, with no feature class after
    it, is not refused: the reader is sent to the geodatabase for a layer
    that bears the geodatabase's own file name. *)
Theorem bare_gdb_path_layer (read_file : ReadCall -> result GeoDataFrame)
    (dir gdb_name : string) :
  dir = "" \/ EndsWith "/" dir ->
  ~ Substring "/" gdb_name ->
  ~ Substring ".gdb" (dir ++ gdb_name) ->
  ~ Substring ".shp" (dir ++ gdb_name ++ ".gdb") ->
  esri_to_gdf read_file (dir ++ gdb_name ++ ".gdb") =
  read_file (ReadLayer (dir ++ gdb_name ++ ".gdb") (gdb_name ++ ".gdb")).
Proof.
  intros Hdir Hname Hgdb Hshp. unfold esri_to_gdf.
  apply str_in_false in Hshp. rewrite Hshp.
  assert (Py.str_in ".gdb" (dir ++ gdb_name ++ ".gdb") = true) as ->
    by (apply str_in_spec; exists (dir ++ gdb_name), "";
        now rewrite append_assoc).
  cbv zeta.
  assert (Py.item0 (Py.split ".gdb" (dir ++ gdb_name ++ ".gdb")) = dir ++ gdb_name)
    as ->.
  { pose proof (item0_split_gdb (dir ++ gdb_name) "" Hgdb) as Hsplit.
    cbn [append] in Hsplit. now rewrite append_assoc in Hsplit. }
  rewrite basename_of_name; [now rewrite !append_assoc | exact Hdir |].
  intros H. apply char_in_append in H as [H|H]; [contradiction|].
  apply str_in_spec in H. discriminate.
Qed.

Lemma gdb_path_round_trip_witness :
  esri_to_gdf reads_empty_frame "C:/data/my.gdb/transport/roads" =
  reads_empty_frame (ReadLayer "C:/data/my.gdb" "roads").
Proof.
  refine (gdb_path_round_trip reads_empty_frame "C:/data/my" "transport/" "roads"
            _ _ _ _).
  - rewrite <- str_in_false. reflexivity.
  - right. now exists "transport".
  - rewrite <- str_in_false. reflexivity.
  - rewrite <- str_in_false. reflexivity.
Defined.

Lemma bare_gdb_path_layer_witness :
  esri_to_gdf reads_empty_frame "data/my.gdb" =
  reads_empty_frame (ReadLayer "data/my.gdb" "my.gdb").
Proof.
  refine (bare_gdb_path_layer reads_empty_frame "data/" "my" _ _ _ _).
  - right. now exists "data".
  - rewrite <- str_in_false. reflexivity.
  - rewrite <- str_in_false. reflexivity.
  - rewrite <- str_in_false. reflexivity.
Defined.

(* ===================================================================== *)
(** ** Geometry of the document *)
(* ===================================================================== *)

Lemma kept_rings_fixed (rings : list (list Coord)) :
  kept_rings rings = rings <-> List.length rings <= 1.
Proof.
  unfold kept_rings. destruct rings as [|r rs] using rev_ind.
  - simpl. split; [lia | reflexivity].
  - rewrite rev_app_distr. simpl. split.
    + intros H. apply (f_equal (@List.length _)) in H.
      rewrite length_app in H. simpl in H.
      rewrite length_app. simpl. lia.
    + rewrite length_app. simpl. intros H.
      destruct rs; [reflexivity | simpl in H; lia].
Qed.

Lemma assign_boundaries_emitted (shape : PolygonShape) :
  KmlPolygonGeom (assign_boundaries shape newpolygon) = emitted_polygon shape.
Proof.
  unfold emitted_polygon, kept_rings. f_equal.
  pose proof (assign_boundaries_inner shape newpolygon) as Hi.
  pose proof (assign_boundaries_outer shape newpolygon) as Ho.
  destruct (assign_boundaries shape newpolygon) as [o i]. simpl in *.
  now subst.
Qed.

(** X3.  The polygon that reaches the document has the exterior of the
    source polygon as its outer boundary and, as inner boundaries, the last
    interior ring alone (none when the source has none); the same holds
    for every part of a MultiPolygon, part by part in order.  So it is the
    specified polygon exactly when the source has at most one hole. *)
Theorem polygon_boundaries_emitted (cfg : Config) (label : string) :
  (forall shape,
      option_map body (build_feature cfg label (Polygon shape)) =
      Some (Single (emitted_polygon shape))) /\
  (forall geoms,
      option_map body (build_feature cfg label (MultiPolygon geoms)) =
      Some (MultiGeometry (map emitted_polygon geoms))) /\
  (forall shape,
      emitted_polygon shape = spec_polygon shape <->
      List.length (interiors shape) <= 1).
Proof.
  split; [|split].
  - intros shape. cbn [build_feature option_map].
    rewrite style_polygon_body. cbn [body].
    now rewrite assign_boundaries_emitted.
  - intros geoms. cbn [build_feature option_map]. unfold newmultigeometry.
    rewrite (fold_add_part
               (fun polygon => KmlPolygonGeom (assign_boundaries polygon newpolygon))).
    rewrite style_polygon_body. cbn [body app]. do 2 f_equal.
    apply map_ext. intros shape. apply assign_boundaries_emitted.
  - intros shape. unfold emitted_polygon, spec_polygon.
    rewrite <- kept_rings_fixed. split.
    + intros H. now injection H.
    + intros H. now rewrite H.
Qed.

Lemma map_flat_map {A B C : Type} (f : B -> C) (g : A -> list B) (l : list A) :
  map f (flat_map g l) = flat_map (fun x => map f (g x)) l.
Proof.
  induction l as [|x l IH]; simpl; [reflexivity | now rewrite map_app, IH].
Qed.

Lemma record_features_bodies (centroid : Geometry -> Coord) (cfg : Config)
    (cols : list string) (row : Row) :
  (forall geom, geometry row = Some geom -> at_most_one_hole geom) ->
  map body (record_features centroid cfg cols row) =
  record_bodies centroid cfg cols row.
Proof.
  intros Hholes. unfold record_features, record_bodies.
  destruct (geometry row) as [geom|]; [|reflexivity].
  pose proof (build_feature_body cfg (resolve_label cfg cols row) geom
                (Hholes geom eq_refl)) as Hbody.
  destruct (build_feature cfg (resolve_label cfg cols row) geom) as [f|];
    simpl in Hbody; rewrite <- Hbody; [|reflexivity].
  destruct (polygonal geom && show_labels cfg
            && Py.truthy_str (resolve_label cfg cols row)); [|reflexivity].
  unfold centroid_label. now destruct (centroid geom).
Qed.

(** X4.  When no polygon of the frame has more than one hole, the
    geometries of the document are the geometries of the records, vertex
    for vertex and part for part, in record order: each record with a
    supported geometry gives its own geometry, a labelled polygon is
    followed by the point at its centroid, and the other records give
    nothing. *)
Theorem document_geometries (to_crs : GeoDataFrame -> Z -> GeoDataFrame)
    (centroid : Geometry -> Coord) (gdf : GeoDataFrame) (path : string) (cfg : Config) :
  (forall row geom,
      In row (rows (transcoded_frame to_crs gdf)) ->
      geometry row = Some geom -> at_most_one_hole geom) ->
  map body (document (export_kml to_crs centroid gdf path cfg)) =
  flat_map (record_bodies centroid cfg (columns (transcoded_frame to_crs gdf)))
           (rows (transcoded_frame to_crs gdf)).
Proof.
  intros Hholes. rewrite export_kml_document, map_flat_map.
  apply flat_map_ext_in. intros row Hin.
  apply record_features_bodies. intros geom. now apply Hholes.
Qed.

Lemma document_geometries_witness :
  map body (document (export_kml keep_crs first_vertex mixed_frame "out.kml"
                                 name_config)) =
  [Single (KmlPoint [(1%Q, 2%Q)]);
   Single (KmlPolygonGeom (mkKmlPolygon square [hole_a]));
   Single (KmlPoint [(0%Q, 0%Q)]);
   Single (KmlLineString [(0%Q, 0%Q); (1%Q, 1%Q)])].
Proof.
  refine (document_geometries keep_crs first_vertex mixed_frame "out.kml"
            name_config _).
  intros row geom Hin Hgeom.
  repeat (destruct Hin as [<-|Hin];
          [simpl in Hgeom; try discriminate Hgeom;
           injection Hgeom as <-; simpl; auto |]).
  contradiction.
Defined.

(* ===================================================================== *)
(** ** Labels over the whole document *)
(* ===================================================================== *)

Lemma labels_hidden_no_label (cfg : Config) (cols : list string) (row : Row) :
  labels_hidden cfg cols ->
  show_labels cfg && Py.truthy_str (resolve_label cfg cols row) = false.
Proof.
  intros [Hshow|[Hnone|[c [Hc Hbad]]]].
  - now rewrite Hshow.
  - unfold resolve_label. rewrite Hnone. apply andb_false_r.
  - unfold resolve_label. rewrite Hc. destruct Hbad as [->|Hnotin].
    + apply andb_false_r.
    + destruct (in_columns c cols) eqn:Hin.
      * apply in_columns_spec in Hin. contradiction.
      * rewrite andb_false_r. apply andb_false_r.
Qed.

Lemma build_feature_kind (cfg : Config) (label : string) (geom : Geometry)
    (f : Feature) :
  build_feature cfg label geom = Some f ->
  point_or_line geom = true \/ polygonal geom = true.
Proof. destruct geom; simpl; intros H; try discriminate; auto. Qed.

(** With no label to show, a built feature has label scale 0 and either
    no name or the empty name. *)
Lemma build_feature_hidden (cfg : Config) (label : string) (geom : Geometry)
    (f : Feature) :
  show_labels cfg && Py.truthy_str label = false ->
  build_feature cfg label geom = Some f ->
  labelstyle_scale (style f) = Some 0%Q /\ (name f = None \/ name f = Some "").
Proof.
  intros Hhidden Hf.
  destruct (build_feature_kind cfg label geom f Hf) as [Hkind|Hkind].
  - destruct (build_point_or_line cfg label geom Hkind)
      as [f' [Hf' [Hname [Hscale _]]]].
    assert (f' = f) as -> by congruence. split.
    + rewrite Hscale. unfold shown_label_scale. now rewrite Hhidden.
    + right. rewrite Hname. unfold shown_name.
      destruct (show_labels cfg); [|reflexivity].
      simpl in Hhidden. now destruct label.
  - destruct (build_polygonal cfg label geom Hkind) as [raw [Hraw [Hname _]]].
    assert (f = _style_polygon raw (line_color cfg) (line_width cfg)
                               (poly_fill cfg) (poly_color cfg)) as -> by congruence.
    split; [apply style_polygon_label_scale | left].
    now rewrite style_polygon_name.
Qed.

Lemma record_features_hidden (centroid : Geometry -> Coord) (cfg : Config)
    (cols : list string) (row : Row) :
  labels_hidden cfg cols ->
  Forall (fun f => labelstyle_scale (style f) = Some 0%Q /\
                   (name f = None \/ name f = Some ""))
         (record_features centroid cfg cols row) /\
  List.length (record_features centroid cfg cols row) =
  (if transcoded_record row then 1 else 0).
Proof.
  intros Hhidden.
  pose proof (labels_hidden_no_label cfg cols row Hhidden) as Hno.
  unfold record_features, transcoded_record.
  destruct (geometry row) as [geom|]; [|now split].
  rewrite (build_feature_supported cfg (resolve_label cfg cols row) geom).
  destruct (build_feature cfg (resolve_label cfg cols row) geom) as [f|] eqn:Hf;
    [|now split].
  rewrite <- andb_assoc, Hno, andb_false_r. split; [|reflexivity].
  constructor; [|constructor].
  exact (build_feature_hidden cfg _ geom f Hno Hf).
Qed.

(** X5.  When labels are off, or no label column is given, or the given
    one is the empty string or not a column of the frame, nothing in the
    document shows a label: every feature has label scale 0, whatever
    [label_scale] is, and no name or the empty name; and the document holds
    exactly one feature for each record with a supported geometry, so no
    centroid point is added. *)
Theorem hidden_labels_document (to_crs : GeoDataFrame -> Z -> GeoDataFrame)
    (centroid : Geometry -> Coord) (gdf : GeoDataFrame) (path : string) (cfg : Config) :
  labels_hidden cfg (columns (transcoded_frame to_crs gdf)) ->
  Forall (fun f => labelstyle_scale (style f) = Some 0%Q /\
                   (name f = None \/ name f = Some ""))
         (document (export_kml to_crs centroid gdf path cfg)) /\
  List.length (document (export_kml to_crs centroid gdf path cfg)) =
  List.length (filter transcoded_record (rows (transcoded_frame to_crs gdf))).
Proof.
  intros Hhidden. rewrite export_kml_document.
  induction (rows (transcoded_frame to_crs gdf)) as [|row rws [IHall IHlen]].
  - now split.
  - destruct (record_features_hidden centroid cfg _ row Hhidden) as [Hall Hlen].
    cbn [flat_map filter]. split.
    + apply Forall_app. now split.
    + rewrite length_app, Hlen, IHlen.
      now destruct (transcoded_record row).
Qed.

Lemma hidden_labels_document_witness :
  Forall (fun f => labelstyle_scale (style f) = Some 0%Q /\
                   (name f = None \/ name f = Some ""))
         (document (export_kml keep_crs first_vertex mixed_frame "out.kml"
                               hidden_config)) /\
  List.length (document (export_kml keep_crs first_vertex mixed_frame "out.kml"
                                    hidden_config)) = 3.
Proof.
  refine (hidden_labels_document keep_crs first_vertex mixed_frame "out.kml"
            hidden_config _).
  left. reflexivity.
Defined.

Lemma record_features_length (centroid : Geometry -> Coord) (cfg : Config)
    (cols : list string) (row : Row) :
  List.length (record_features centroid cfg cols row) =
  (if transcoded_record row then 1 else 0)
  + (if labelled_polygon cfg cols row then 1 else 0).
Proof.
  unfold record_features, transcoded_record, labelled_polygon.
  destruct (geometry row) as [geom|]; [|reflexivity].
  rewrite (build_feature_supported cfg (resolve_label cfg cols row) geom).
  destruct (build_feature cfg (resolve_label cfg cols row) geom) as [f|] eqn:Hf.
  - now destruct (polygonal geom && show_labels cfg
                  && Py.truthy_str (resolve_label cfg cols row)).
  - destruct geom; try discriminate Hf; reflexivity.
Qed.

(** X6.  The number of features in the document is the number of records
    with a supported geometry plus the number of polygon or multipolygon
    records whose label shows; in particular it is never more than twice
    the number of records. *)
Theorem document_length (to_crs : GeoDataFrame -> Z -> GeoDataFrame)
    (centroid : Geometry -> Coord) (gdf : GeoDataFrame) (path : string) (cfg : Config) :
  let frame := transcoded_frame to_crs gdf in
  List.length (document (export_kml to_crs centroid gdf path cfg)) =
    List.length (filter transcoded_record (rows frame))
    + List.length (filter (labelled_polygon cfg (columns frame)) (rows frame)) /\
  List.length (document (export_kml to_crs centroid gdf path cfg))
    <= 2 * List.length (rows frame).
Proof.
  intros frame. rewrite export_kml_document. fold frame.
  induction (rows frame) as [|row rws [IHeq IHle]].
  - split; [reflexivity | simpl; lia].
  - cbn [flat_map filter]. rewrite length_app, record_features_length.
    destruct (transcoded_record row);
      destruct (labelled_polygon cfg (columns frame) row); simpl; split; lia.
Qed.

(* ===================================================================== *)
(** ** Console *)
(* ===================================================================== *)

Lemma record_diagnostics_unsupported (row : Row) :
  record_diagnostics row =
  if unsupported_record row then [unsupported_warning (record_kind row)] else [].
Proof.
  unfold record_diagnostics, unsupported_record, record_kind.
  destruct (geometry row) as [geom|]; [|reflexivity].
  now destruct (existsb (String.eqb (geom_type geom)) supported_kinds).
Qed.

(** X7.  The console of a run is one warning for each record whose
    geometry kind has no branch, in record order and naming that kind,
    followed by the line that reports the saved path, which is always the
    last line.  A frame without such records prints that line only. *)
Theorem console_lines (to_crs : GeoDataFrame -> Z -> GeoDataFrame)
    (centroid : Geometry -> Coord) (gdf : GeoDataFrame) (path : string) (cfg : Config) :
  let frame := transcoded_frame to_crs gdf in
  console (export_kml to_crs centroid gdf path cfg) =
    (map (fun row => unsupported_warning (record_kind row))
         (filter unsupported_record (rows frame))
     ++ [("KML saved to: " ++ path)%string])%list /\
  last (console (export_kml to_crs centroid gdf path cfg)) "" =
    "KML saved to: " ++ path /\
  (forallb (fun row => negb (unsupported_record row)) (rows frame) = true ->
   console (export_kml to_crs centroid gdf path cfg) = ["KML saved to: " ++ path]).
Proof.
  intros frame. rewrite export_kml_console. fold frame.
  assert (flat_map record_diagnostics (rows frame) =
          map (fun row => unsupported_warning (record_kind row))
              (filter unsupported_record (rows frame))) as ->.
  { induction (rows frame) as [|row rws IH]; [reflexivity|].
    cbn [flat_map filter]. rewrite record_diagnostics_unsupported, IH.
    now destruct (unsupported_record row). }
  split; [reflexivity | split].
  - apply last_last.
  - intros Hall.
    assert (filter unsupported_record (rows frame) = []) as ->; [|reflexivity].
    induction (rows frame) as [|row rws IH]; [reflexivity|].
    cbn [forallb] in Hall. apply andb_true_iff in Hall as [Hrow Hrest].
    cbn [filter]. apply negb_true_iff in Hrow. rewrite Hrow. now apply IH.
Qed.

(* ===================================================================== *)
(** ** Frames in parts and frames already reprojected *)
(* ===================================================================== *)

Lemma unprojected_frame (to_crs : GeoDataFrame -> Z -> GeoDataFrame)
    (gdf : GeoDataFrame) :
  needs_reprojection gdf = false -> transcoded_frame to_crs gdf = gdf.
Proof. intros H. unfold transcoded_frame. now rewrite H. Qed.

(** X8.  For a frame that needs no reprojection (no reference system, or
    EPSG 4326), the document of the frame is the document of its first
    records followed by the document of the remaining records: records are
    transcoded one by one, and no record changes what another one gives. *)
Theorem document_of_parts (to_crs : GeoDataFrame -> Z -> GeoDataFrame)
    (centroid : Geometry -> Coord) (frame_crs : option CRS) (cols : list string)
    (first_rows more_rows : list Row) (path : string) (cfg : Config) :
  frame_crs = None \/ (exists c, frame_crs = Some c /\ to_epsg c = Some 4326%Z) ->
  document (export_kml to_crs centroid
              (mkGeoDataFrame frame_crs cols (first_rows ++ more_rows)) path cfg) =
  (document (export_kml to_crs centroid
               (mkGeoDataFrame frame_crs cols first_rows) path cfg)
   ++ document (export_kml to_crs centroid
                  (mkGeoDataFrame frame_crs cols more_rows) path cfg))%list.
Proof.
  intros Hcrs.
  assert (forall rws, needs_reprojection (mkGeoDataFrame frame_crs cols rws) = false)
    as Hno.
  { intros rws. unfold needs_reprojection. cbn [crs].
    destruct Hcrs as [->|[c [-> Hcode]]]; [reflexivity|]. now rewrite Hcode. }
  rewrite !export_kml_document, !unprojected_frame by apply Hno.
  cbn [rows columns]. apply flat_map_app.
Qed.

Lemma document_of_parts_witness :
  document (export_kml keep_crs first_vertex
              (mkGeoDataFrame (Some wgs84) ["name"] (wgs84_rows_a ++ wgs84_rows_b))
              "out.kml" name_config) =
  (document (export_kml keep_crs first_vertex
               (mkGeoDataFrame (Some wgs84) ["name"] wgs84_rows_a) "out.kml" name_config)
   ++ document (export_kml keep_crs first_vertex
                  (mkGeoDataFrame (Some wgs84) ["name"] wgs84_rows_b)
                  "out.kml" name_config))%list.
Proof.
  refine (document_of_parts keep_crs first_vertex (Some wgs84) ["name"]
            wgs84_rows_a wgs84_rows_b "out.kml" name_config _).
  right. exists wgs84. split; reflexivity.
Defined.

(** X9.  When the reprojection hands back a frame that itself needs no
    reprojection, exporting that frame directly gives the same document and
    the same console as exporting the original frame, and asks for no
    reprojection, where the original run asks for one. *)
Theorem reprojected_frame_export (to_crs : GeoDataFrame -> Z -> GeoDataFrame)
    (centroid : Geometry -> Coord) (gdf : GeoDataFrame) (path : string) (cfg : Config) :
  needs_reprojection gdf = true ->
  needs_reprojection (to_crs gdf 4326%Z) = false ->
  let direct := export_kml to_crs centroid (to_crs gdf 4326%Z) path cfg in
  let original := export_kml to_crs centroid gdf path cfg in
  document direct = document original /\
  console direct = console original /\
  to_crs_calls direct = [] /\
  to_crs_calls original = [4326%Z].
Proof.
  intros Hneeds Hdone direct original. unfold direct, original.
  rewrite !export_kml_document, !export_kml_console.
  rewrite (unprojected_frame to_crs _ Hdone).
  unfold transcoded_frame, export_kml. rewrite Hneeds, Hdone.
  now repeat split.
Qed.

Lemma reprojected_frame_export_witness :
  document (export_kml retag_crs first_vertex (retag_crs mixed_frame 4326%Z)
                       "out.kml" name_config) =
  document (export_kml retag_crs first_vertex mixed_frame "out.kml" name_config) /\
  to_crs_calls (export_kml retag_crs first_vertex (retag_crs mixed_frame 4326%Z)
                           "out.kml" name_config) = [].
Proof.
  destruct (reprojected_frame_export retag_crs first_vertex mixed_frame "out.kml"
              name_config eq_refl eq_refl) as [Hdoc [_ [Hcalls _]]].
  split; [exact Hdoc | exact Hcalls].
Defined.

(* ===================================================================== *)
(** ** Styles *)
(* ===================================================================== *)

(** X10.  The style of a feature, kind by kind.  A point or multipoint
    carries the configured icon scale and colour, its label scale and the
    label colour, and no line or fill attribute.  A line or multiline
    carries the configured line colour and width, its label scale and the
    label colour, and no icon or fill attribute.  A polygon or multipolygon
    carries the configured line colour and width and the fill flag, and no
    icon attribute and no label colour. *)
Theorem style_by_kind (cfg : Config) (label : string) (geom : Geometry) :
  (point_kind geom = true ->
   option_map style (build_feature cfg label geom) =
   Some (mkStyle (Some (point_icon_scale cfg)) (Some (point_icon_color cfg))
                 (Some (shown_label_scale cfg label)) (Some (label_color cfg))
                 None None None None)) /\
  (line_kind geom = true ->
   option_map style (build_feature cfg label geom) =
   Some (mkStyle None None
                 (Some (shown_label_scale cfg label)) (Some (label_color cfg))
                 (Some (line_color cfg)) (Some (line_width cfg)) None None)) /\
  (polygonal geom = true ->
   exists fill_color,
     option_map style (build_feature cfg label geom) =
     Some (mkStyle None None (Some 0%Q) None
                   (Some (line_color cfg)) (Some (line_width cfg))
                   (Some (poly_fill cfg)) fill_color)).
Proof.
  split; [|split]; intros Hkind; destruct geom; try discriminate Hkind;
    cbn [build_feature option_map].
  - reflexivity.
  - now rewrite fold_add_point.
  - reflexivity.
  - unfold newmultigeometry. now rewrite fold_add_part.
  - unfold _style_polygon.
    destruct (Py.truthy_int (poly_fill cfg) && Py.truthy_opt_str (poly_color cfg));
      [destruct (poly_color cfg)|]; eexists; reflexivity.
  - unfold newmultigeometry. rewrite fold_add_part. unfold _style_polygon.
    destruct (Py.truthy_int (poly_fill cfg) && Py.truthy_opt_str (poly_color cfg));
      [destruct (poly_color cfg)|]; eexists; reflexivity.
Qed.

(** X11.  [_style_polygon] changes the line colour, the line width, the
    fill flag, the label scale and, when the fill gate is open, the fill
    colour; it leaves the geometry, the name, the icon attributes and the
    label colour of the feature as they were, and with the gate closed it
    leaves a fill colour the feature already has in place.  Styling a
    feature a second time with the same arguments changes nothing. *)
Theorem style_polygon_frame (f : Feature) (lc : string) (lw : Q) (pf : Z)
    (pc : option string) :
  let styled := _style_polygon f lc lw pf pc in
  body styled = body f /\
  name styled = name f /\
  iconstyle_scale (style styled) = iconstyle_scale (style f) /\
  iconstyle_color (style styled) = iconstyle_color (style f) /\
  labelstyle_color (style styled) = labelstyle_color (style f) /\
  (Py.truthy_int pf && Py.truthy_opt_str pc = false ->
   polystyle_color (style styled) = polystyle_color (style f)) /\
  _style_polygon styled lc lw pf pc = styled.
Proof.
  intros styled. unfold styled, _style_polygon.
  destruct (Py.truthy_int pf && Py.truthy_opt_str pc) eqn:Hgate.
  - destruct pc as [c|]; [|now rewrite andb_false_r in Hgate].
    repeat split. discriminate.
  - now repeat split.
Qed.

(** X12.  A point, multipoint, line or multiline record gives one feature
    whose name is the record's label when [show_labels] is on and the empty
    string when it is off, and whose label colour is the configured one. *)
Theorem point_line_name (centroid : Geometry -> Coord) (cfg : Config)
    (cols : list string) (st : Progress) (row : Row) (geom : Geometry) :
  geometry row = Some geom -> point_or_line geom = true ->
  exists f,
    kml (export_row centroid cfg cols st row) = (kml st ++ [f])%list /\
    name f = Some (if show_labels cfg then resolve_label cfg cols row else "") /\
    labelstyle_color (style f) = Some (label_color cfg).
Proof.
  intros Hgeom Hkind.
  destruct (record_point_or_line centroid cfg cols row geom Hgeom Hkind)
    as [f [Hf [Hrec _]]].
  destruct (build_point_or_line cfg (resolve_label cfg cols row) geom Hkind)
    as [f' [Hf' [Hname [_ Hcolor]]]].
  assert (f' = f) as -> by congruence.
  exists f. rewrite export_row_appends, Hrec. now repeat split.
Qed.

Lemma point_line_name_witness :
  exists f,
    kml (export_row first_vertex name_config ["name"] (mkProgress [] []) point_row) =
      [f] /\
    name f = Some "A" /\
    labelstyle_color (style f) = Some Color_white.
Proof.
  exact (point_line_name first_vertex name_config ["name"] (mkProgress [] [])
           point_row (Point 1%Q 2%Q) eq_refl eq_refl).
Defined.

(* ===================================================================== *)
(** ** Missing geometries *)
(* ===================================================================== *)

Lemma loop_body_source_row (centroid : Geometry -> Coord) (cfg : Config)
    (cols : list string) (st : Progress) (row : Row) :
  loop_body centroid cfg cols st (source_row row) =
  Finished (export_row centroid cfg cols st row).
Proof.
  destruct row as [vals [geom|]]; unfold loop_body, source_row; cbn.
  - reflexivity.
  - reflexivity.
Qed.

(** On records that have [None] or a geometry the loop runs through, and
    does what [export_row] does record by record. *)
Lemma loop_source_rows (centroid : Geometry -> Coord) (cfg : Config)
    (cols : list string) (rws : list Row) (st : Progress) :
  loop centroid cfg cols (map source_row rws) st =
  Finished (fold_left (export_row centroid cfg cols) rws st).
Proof.
  revert st. induction rws as [|row rws IH]; intros st; [reflexivity|].
  cbn [map loop fold_left]. now rewrite loop_body_source_row, IH.
Qed.

Lemma loop_app (centroid : Geometry -> Coord) (cfg : Config)
    (cols : list string) (first_rows more_rows : list SourceRow) (st : Progress) :
  loop centroid cfg cols (first_rows ++ more_rows) st =
  match loop centroid cfg cols first_rows st with
  | Finished st' => loop centroid cfg cols more_rows st'
  | Failed st' error => Failed st' error
  end.
Proof.
  revert st. induction first_rows as [|row rws IH]; intros st; [reflexivity|].
  cbn [app loop]. destruct (loop_body centroid cfg cols st row); [apply IH | reflexivity].
Qed.

(** The loop stops at the first record whose geometry is NaN: the records
    before it are transcoded, the records after it never are. *)
Lemma loop_stops_at_nan (centroid : Geometry -> Coord) (cfg : Config)
    (cols : list string) (before : list Row) (row : SourceRow)
    (after : list SourceRow) (st : Progress) :
  geometry_cell row = CellNaN ->
  loop centroid cfg cols (map source_row before ++ row :: after) st =
  Failed (fold_left (export_row centroid cfg cols) before st) float_has_no_geom_type.
Proof.
  intros Hnan. rewrite loop_app, loop_source_rows.
  cbn [loop]. unfold loop_body. now rewrite Hnan.
Qed.

(** On a frame without NaN geometries the call is the one [export_kml]
    describes, for a reprojection that treats both kinds of frame alike. *)
Lemma export_kml_run_saved (to_crs : GeoDataFrame -> Z -> GeoDataFrame)
    (source_to_crs : SourceFrame -> Z -> SourceFrame)
    (centroid : Geometry -> Coord) (gdf : GeoDataFrame) (path : string) (cfg : Config) :
  (forall g code, source_to_crs (source_frame g) code = source_frame (to_crs g code)) ->
  export_kml_run source_to_crs centroid (source_frame gdf) path cfg =
  Saved (export_kml to_crs centroid gdf path cfg).
Proof.
  intros Hcrs. unfold export_kml_run, export_kml.
  assert (needs_reprojection
            (mkGeoDataFrame (source_crs (source_frame gdf))
                            (source_columns (source_frame gdf)) []) =
          needs_reprojection gdf) as -> by reflexivity.
  destruct (needs_reprojection gdf).
  - rewrite Hcrs. cbn [source_frame source_columns source_rows].
    now rewrite loop_source_rows.
  - cbn [source_frame source_columns source_rows].
    now rewrite loop_source_rows.
Qed.

(** C6, at a frame whose second record has no geometry.  The missing
    geometry reaches the loop as a NaN, which [if geom is None] does not
    catch, and [geom.geom_type] raises: the call ends there, with the point
    before it built but nothing saved and nothing printed, and the line
    after it never transcoded.  The record is not skipped: without it the
    same frame is saved with the point and the line. *)
Theorem missing_geometry_aborts_run :
  export_kml_run keep_source_crs first_vertex nan_geometry_frame "out.kml"
                 name_config =
    Aborted [] [] float_has_no_geom_type /\
  loop first_vertex name_config ["name"] (source_rows nan_geometry_frame)
       (mkProgress [] []) =
    Failed (export_row first_vertex name_config ["name"] (mkProgress [] []) point_row)
           float_has_no_geom_type /\
  exists run,
    export_kml_run keep_source_crs first_vertex without_nan_frame "out.kml"
                   name_config = Saved run /\
    map name (document run) = [Some "A"; Some "L"] /\
    console run = ["KML saved to: out.kml"].
Proof.
  split; [reflexivity | split; [reflexivity|]].
  eexists. split; [reflexivity | split; reflexivity].
Qed.

(* ===================================================================== *)
(** ** Two runs in one process *)
(* ===================================================================== *)

Lemma build_feature_emitted_body (cfg : Config) (label : string) (geom : Geometry) :
  option_map body (build_feature cfg label geom) = emitted_body geom.
Proof.
  destruct geom as [x y|geoms|coords|geoms|shape|geoms|coords|geoms];
    cbn [build_feature option_map emitted_body].
  - reflexivity.
  - now rewrite fold_add_point.
  - now rewrite xy_list_id.
  - unfold newmultigeometry.
    rewrite (fold_add_part (fun line => KmlLineString (xy_list line))). simpl.
    do 2 f_equal. apply map_ext. intros line. now rewrite xy_list_id.
  - rewrite style_polygon_body. cbn [body].
    now rewrite assign_boundaries_emitted.
  - unfold newmultigeometry.
    rewrite (fold_add_part
               (fun polygon => KmlPolygonGeom (assign_boundaries polygon newpolygon))).
    rewrite style_polygon_body. cbn [body app]. do 2 f_equal.
    apply map_ext. intros shape. apply assign_boundaries_emitted.
  - reflexivity.
  - reflexivity.
Qed.

Lemma record_features_emitted_bodies (centroid : Geometry -> Coord) (cfg : Config)
    (cols : list string) (row : Row) :
  map body (record_features centroid cfg cols row) =
  record_emitted_bodies centroid cfg cols row.
Proof.
  unfold record_features, record_emitted_bodies, labelled_polygon.
  destruct (geometry row) as [geom|]; [|reflexivity].
  pose proof (build_feature_emitted_body cfg (resolve_label cfg cols row) geom)
    as Hbody.
  destruct (build_feature cfg (resolve_label cfg cols row) geom) as [f|];
    simpl in Hbody; rewrite <- Hbody; [|reflexivity].
  destruct (polygonal geom && show_labels cfg
            && Py.truthy_str (resolve_label cfg cols row)); [|reflexivity].
  unfold centroid_label. now destruct (centroid geom).
Qed.

(** C9 (as amended).  Two calls on the same input, one after the other in
    one process, write the same features to the same path: the geometries
    of the records in record order, each as it reaches the document, a
    labelled polygon followed by the point at its centroid, the records
    without geometry or of a kind without a branch giving nothing.  The
    files differ in their ids: the first document has the id the counter
    stood at, the second a later one.  Calls whose counters stand at the
    same value, as in two fresh processes, write the same file, and only
    those do. *)
Theorem export_twice_differs_in_ids_only (objects_created : list Feature -> nat)
    (to_crs : GeoDataFrame -> Z -> GeoDataFrame) (centroid : Geometry -> Coord)
    (next_id : nat) (gdf : GeoDataFrame) (path : string) (cfg : Config) :
  let files := export_twice objects_created to_crs centroid next_id gdf path cfg in
  let frame := transcoded_frame to_crs gdf in
  file_features (fst files) = file_features (snd files) /\
  file_path (fst files) = file_path (snd files) /\
  map body (file_features (fst files)) =
    flat_map (record_emitted_bodies centroid cfg (columns frame)) (rows frame) /\
  document_id (fst files) = next_id /\
  document_id (snd files) =
    next_id + 1 + objects_created (file_features (fst files)) /\
  fst files <> snd files /\
  (forall other_id,
      fst (export_kml_in_process objects_created to_crs centroid other_id gdf path cfg)
      = fst files <-> other_id = next_id).
Proof.
  intros files frame. unfold files, export_twice, export_kml_in_process.
  cbn [fst snd file_features file_path document_id].
  split; [reflexivity | split; [reflexivity | split; [|split; [reflexivity|split]]]].
  - rewrite export_kml_document, map_flat_map. fold frame.
    apply flat_map_ext_in. intros row _. apply record_features_emitted_bodies.
  - reflexivity.
  - split.
    + intros H. apply (f_equal document_id) in H. cbn [document_id] in H. lia.
    + intros other_id. split.
      * intros H. apply (f_equal document_id) in H. exact H.
      * intros ->. reflexivity.
Qed.

(** C9 (as stated) fails: the square with two holes, exported twice in a
    process whose counter stands at 0 and draws three ids for each feature,
    gives a document with id 0 and then one with id 7, so the two files are
    not the same file. *)
Lemma second_run_has_later_ids :
  let files := export_twice three_ids_per_feature keep_crs first_vertex 0
                            two_holes_frame "out.kml" name_config in
  document_id (fst files) = 0 /\
  document_id (snd files) = 7 /\
  file_features (fst files) = file_features (snd files) /\
  (fst files = snd files -> False).
Proof.
  cbv zeta. split; [reflexivity | split; [reflexivity | split; [reflexivity|]]].
  intros H. apply (f_equal document_id) in H. vm_compute in H. discriminate H.
Qed.
